(** * AGV TaskOn Verification API (src/main.py): a shallow embedding

    Python [str] values are sequences of Unicode code points ([list Z]).
    The character predicates and case mappings of Python's Unicode
    database that the code relies on ([str.isalpha], [str.isspace] used
    by [strip()], the [\d] class of [re], [str.upper], [str.lower]) are
    collected in the record [ucd]; general theorems are stated for any
    table satisfying the stated ASCII facts, concrete runs use [py_ucd]. *)

From Stdlib Require Import ZArith List String Ascii Bool Lia.
Import ListNotations.
Open Scope Z_scope.

(** ** Python text *)

Definition pystr := list Z.

(** An ASCII literal as a Python string. *)
Definition u (s : string) : pystr :=
  map (fun a => Z.of_nat (nat_of_ascii a)) (list_ascii_of_string s).

Record ucd := {
  isalpha : Z -> bool;      (* str.isalpha of a one-character string *)
  isspace : Z -> bool;      (* str.isspace: the characters strip() removes *)
  is_re_digit : Z -> bool;  (* \d of a str pattern: Unicode decimal digit *)
  upper_char : Z -> pystr;  (* full uppercase mapping of one character *)
  lower : pystr -> pystr    (* str.lower *)
}.

Section Str.
Variable db : ucd.

(** [s.upper()]: the full uppercase mappings, character by character. *)
Definition py_upper (s : pystr) : pystr := flat_map (upper_char db) s.

Fixpoint lstrip (s : pystr) : pystr :=
  match s with
  | c :: r => if isspace db c then lstrip r else s
  | [] => []
  end.

(** [s.strip()] *)
Definition py_strip (s : pystr) : pystr := rev (lstrip (rev (lstrip s))).

(** [s.strip().lower()], as used on the target and on every cell. *)
Definition norm (s : pystr) : pystr := lower db (py_strip s).

End Str.

Fixpoint pystr_eqb (a b : pystr) : bool :=
  match a, b with
  | [], [] => true
  | x :: a', y :: b' => (x =? y) && pystr_eqb a' b'
  | _, _ => false
  end.

Fixpoint prefixb (p s : pystr) : bool :=
  match p, s with
  | [], _ => true
  | x :: p', y :: s' => (x =? y) && prefixb p' s'
  | _, [] => false
  end.

(** [needle in hay] *)
Fixpoint contains (needle hay : pystr) : bool :=
  prefixb needle hay ||
  match hay with
  | [] => false
  | _ :: hay' => contains needle hay'
  end.

(** ** Exceptions and the handler monad

    A computation returns its value or the Python exception it raises,
    together with the remote calls it made, in order. *)

Inductive exc_kind := ValueError | HttpError | AttributeError | KeyError
                    | IndexError | TransportError | OtherError.

Record exc := Exc { ekind : exc_kind; emsg : pystr }.

Inductive res (A : Type) := Ok (a : A) | Raise (e : exc).
Arguments Ok {A} a.
Arguments Raise {A} e.

Inductive call :=
  | SheetsMetadata (spreadsheet_id : pystr)
  | SheetsValues (spreadsheet_id range : pystr)
  | HttpGet (url : pystr).

Definition M (A : Type) := (list call * res A)%type.

Definition ret {A} (a : A) : M A := ([], Ok a).
Definition raise {A} (e : exc) : M A := ([], Raise e).

Definition bind {A B} (m : M A) (f : A -> M B) : M B :=
  match m with
  | (l, Ok a) => let (l', r) := f a in (l ++ l', r)
  | (l, Raise e) => (l, Raise e)
  end.

(** [try: m except e: h e] *)
Definition try_except {A} (m : M A) (h : exc -> M A) : M A :=
  match m with
  | (l, Raise e) => let (l', r) := h e in (l ++ l', r)
  | ok => ok
  end.

Notation "x <- m ;; k" := (bind m (fun x => k))
  (at level 61, m at next level, right associativity).

(** ** column_letter_to_index (main.py, lines 58-70) *)

Section Column.
Variable db : ucd.

Fixpoint fold_index (index : Z) (s : pystr) : Z :=
  match s with
  | [] => index
  | char :: r => fold_index (index * 26 + (char - 65 + 1)) r
  end.

(** The [except Exception: log; raise] wrapper re-raises unchanged. *)
Definition column_letter_to_index (letter : pystr) : res Z :=
  let letter := py_strip db (py_upper db letter) in
  if (match letter with [] => true | _ => false end)
     || negb (forallb (isalpha db) letter)
  then Raise (Exc ValueError (u "Invalid column letter: " ++ letter))
  else Ok (fold_index 0 letter - 1).

End Column.

(** ** A concrete table

    [py_ucd] agrees with Python 3's Unicode database on every code point
    0..255 and on U+0345, U+0399, U+039C and U+0178; elsewhere it answers
    "not a letter / not a space / not a digit / no case mapping", so it is
    only used on strings made of those code points. *)

Definition in_range (lo hi c : Z) : bool := (lo <=? c) && (c <=? hi).

Definition py_isalpha (c : Z) : bool :=
  in_range 65 90 c || in_range 97 122 c || (c =? 170) || (c =? 181)
  || (c =? 186) || in_range 192 214 c || in_range 216 246 c
  || in_range 248 255 c || (c =? 921) || (c =? 924) || (c =? 376).

Definition py_isspace (c : Z) : bool :=
  in_range 9 13 c || in_range 28 32 c || (c =? 133) || (c =? 160).

Definition py_re_digit (c : Z) : bool := in_range 48 57 c.

Definition py_upper_char (c : Z) : pystr :=
  if in_range 97 122 c then [c - 32]
  else if c =? 181 then [924]
  else if c =? 223 then [83; 83]
  else if in_range 224 254 c && negb (c =? 247) then [c - 32]
  else if c =? 255 then [376]
  else if c =? 837 then [921]
  else [c].

Definition py_lower_char (c : Z) : Z :=
  if in_range 65 90 c || (in_range 192 222 c && negb (c =? 215)) then c + 32
  else if c =? 921 then 953
  else if c =? 924 then 956
  else if c =? 376 then 255
  else c.

Definition py_ucd : ucd := {|
  isalpha := py_isalpha;
  isspace := py_isspace;
  is_re_digit := py_re_digit;
  upper_char := py_upper_char;
  lower := map py_lower_char
|}.

Example col_F : column_letter_to_index py_ucd (u "F") = Ok 5.
Proof. reflexivity. Qed.
Example col_aa : column_letter_to_index py_ucd (u " aa ") = Ok 26.
Proof. reflexivity. Qed.
Example col_A1 : exists m, column_letter_to_index py_ucd (u "A1") = Raise (Exc ValueError m).
Proof. eexists; reflexivity. Qed.

(** ** The Google Sheets client and is_email_in_sheet / is_wallet_in_sheet
    (main.py, lines 76-172)

    The client built at start-up answers two requests: the spreadsheet
    metadata (the titles listed under ["sheets"], or [None] when that key
    is absent) and the values of a range (the ["values"] entry of the
    reply, or [None] when absent); either may raise. *)

Record sheets_api := {
  get_metadata : pystr -> res (option (list pystr));
  get_values : pystr -> pystr -> res (option (list (list pystr)))
}.

Definition spreadsheets_get (api : sheets_api) (sid : pystr)
  : M (option (list pystr)) :=
  ([SheetsMetadata sid], get_metadata api sid).

Definition values_get (api : sheets_api) (sid range : pystr)
  : M (option (list (list pystr))) :=
  ([SheetsValues sid range], get_values api sid range).

(** [sheet_metadata["sheets"][0]["properties"]["title"]] *)
Definition first_sheet_title (meta : option (list pystr)) : M pystr :=
  match meta with
  | None => raise (Exc KeyError (u "'sheets'"))
  | Some [] => raise (Exc IndexError (u "list index out of range"))
  | Some (title :: _) => ret title
  end.

(** [row[i]] on a Python list: negative indices count from the end. *)
Definition getitem {A} (l : list A) (i : Z) : M A :=
  let n := Z.of_nat (List.length l) in
  let j := if i <? 0 then i + n else i in
  match (if (0 <=? j) && (j <? n) then nth_error l (Z.to_nat j) else None) with
  | Some x => ret x
  | None => raise (Exc IndexError (u "list index out of range"))
  end.

(** The truthiness of an optional configured string ([None] or the empty string are
    false). *)
Definition truthy_id (s : option pystr) : bool :=
  match s with None | Some [] => false | Some _ => true end.

Section Lookup.
Variable db : ucd.

(** [for row in values[1:]: if len(row) > column_index and
    row[column_index].strip().lower() == target: return True] *)
Fixpoint scan_rows (column_index : Z) (target : pystr)
    (rows : list (list pystr)) : M bool :=
  match rows with
  | [] => ret false
  | row :: rest =>
      if Z.of_nat (List.length row) >? column_index then
        cell <- getitem row column_index ;;
        if pystr_eqb (norm db cell) target then ret true
        else scan_rows column_index target rest
      else scan_rows column_index target rest
  end.

Definition is_email_in_sheet (sheets_service : option sheets_api)
    (email : pystr) (sheet_id : option pystr) (column_letter : pystr) : M bool :=
  match sheets_service with
  | None => ret false
  | Some api =>
    if negb (truthy_id sheet_id) then ret false else
    let sid := match sheet_id with Some s => s | None => [] end in
    let email_lower := norm db email in
    (* except HttpError: raise / except Exception: raise *)
    try_except (
      sheet_metadata <- spreadsheets_get api sid ;;
      sheet_name <- first_sheet_title sheet_metadata ;;
      result <- values_get api sid (sheet_name ++ u "!A:ZZ") ;;
      let values := match result with Some v => v | None => [] end in
      match values with
      | [] => ret false
      | header :: rows =>
        match column_letter_to_index db column_letter with
        | Raise (Exc ValueError _) => ret false
        | Raise e => raise e
        | Ok column_index =>
          if column_index >=? Z.of_nat (List.length header) then ret false
          else scan_rows column_index email_lower rows
        end
      end) (fun e => raise e)
  end.

Definition is_wallet_in_sheet (sheets_service : option sheets_api)
    (address : pystr) (sheet_id : option pystr) (column_letter : pystr) : M bool :=
  match sheets_service with
  | None => ret false
  | Some api =>
    if negb (truthy_id sheet_id) then ret false else
    let sid := match sheet_id with Some s => s | None => [] end in
    let address_lower := norm db address in
    try_except (
      sheet_metadata <- spreadsheets_get api sid ;;
      sheet_name <- first_sheet_title sheet_metadata ;;
      result <- values_get api sid (sheet_name ++ u "!A:ZZ") ;;
      let values := match result with Some v => v | None => [] end in
      match values with
      | [] => ret false
      | header :: rows =>
        match column_letter_to_index db column_letter with
        | Raise (Exc ValueError _) => ret false
        | Raise e => raise e
        | Ok column_index =>
          if column_index >=? Z.of_nat (List.length header) then ret false
          else scan_rows column_index address_lower rows
        end
      end) (fun e => raise e)
  end.

End Lookup.

(** A one-tab spreadsheet "S1" whose tab "Sheet1" holds [tbl]. *)
Definition demo_api (tbl : list (list pystr)) : sheets_api := {|
  get_metadata := fun sid =>
    if pystr_eqb sid (u "S1") then Ok (Some [u "Sheet1"])
    else Raise (Exc HttpError (u "Requested entity was not found."));
  get_values := fun sid range =>
    if pystr_eqb sid (u "S1") && pystr_eqb range (u "Sheet1!A:ZZ")
    then Ok (Some tbl)
    else Raise (Exc HttpError (u "Unable to parse range"))
|}.

Definition demo_table : list (list pystr) :=
  [[u "a"; u "b"];
   [u "x"];
   [u "y"; u " foo@bar.com"]].

Example lookup_demo :
  is_email_in_sheet py_ucd (Some (demo_api demo_table)) (u "Foo@Bar.com ")
    (Some (u "S1")) (u "B")
  = ([SheetsMetadata (u "S1"); SheetsValues (u "S1") (u "Sheet1!A:ZZ")], Ok true).
Proof. reflexivity. Qed.

(** ** Request bodies, responses and the HTTP client *)

Local Set Warnings "-register-all".

(** A parsed JSON body (numbers are integers). *)
Inductive json :=
  | JNull
  | JBool (b : bool)
  | JNum (n : Z)
  | JStr (s : pystr)
  | JArr (l : list json)
  | JObj (kvs : list (pystr * json)).

(** [dict.get] on a dict built from a JSON object: a repeated key keeps
    its last value. *)
Fixpoint dict_get (k : pystr) (kvs : list (pystr * json)) : option json :=
  match kvs with
  | [] => None
  | (k', v) :: r =>
      match dict_get k r with
      | Some v' => Some v'
      | None => if pystr_eqb k k' then Some v else None
      end
  end.

Definition truthy (v : json) : bool :=
  match v with
  | JNull => false
  | JBool b => b
  | JNum n => negb (n =? 0)
  | JStr s => match s with [] => false | _ => true end
  | JArr l => match l with [] => false | _ => true end
  | JObj kvs => match kvs with [] => false | _ => true end
  end.

Definition type_name (v : json) : pystr :=
  match v with
  | JNull => u "NoneType" | JBool _ => u "bool" | JNum _ => u "int"
  | JStr _ => u "str" | JArr _ => u "list" | JObj _ => u "dict"
  end.

Definition no_attribute (v : json) (attr : pystr) : exc :=
  Exc AttributeError
    (u "'" ++ type_name v ++ u "' object has no attribute '" ++ attr ++ u "'").

(** [(body.get(key) or "").strip()] *)
Definition get_str_field (db : ucd) (body : json) (key : pystr) : M pystr :=
  match body with
  | JObj kvs =>
      let v := match dict_get key kvs with Some v => v | None => JNull end in
      let v := if truthy v then v else JStr [] in
      match v with
      | JStr s => ret (py_strip db s)
      | _ => raise (no_attribute v (u "strip"))
      end
  | _ => raise (no_attribute body (u "get"))
  end.

Record VerificationResponse := {
  result : json;
  error : option pystr
}.

Definition resp (r : json) (e : option pystr) : VerificationResponse :=
  {| result := r; error := e |}.

Definition invalid : json := JObj [(u "isValid", JBool false)].

(** What [await client.get(url)] yields: a response, or the exception
    httpx raises (connection failure, timeout, bad URL...). *)
Inductive fetch_result :=
  | Response (status_code : Z) (text : pystr)
  | Transport (e : exc).

Definition client_get (http : pystr -> fetch_result) (url : pystr)
  : M (Z * pystr) :=
  ([HttpGet url],
   match http url with
   | Response st t => Ok (st, t)
   | Transport e => Raise e
   end).

(** The environment read at start-up. *)
Record config := {
  sheets_service : option sheets_api;
  AGENT_SHEET_ID : option pystr;
  WALLET_SHEET_ID : option pystr;
  AGENT_EMAIL_COLUMN : pystr;
  WALLET_ADDRESS_COLUMN : pystr
}.

(** ** The request handlers (main.py, lines 174-311)

    A POST body is [None] when [await request.json()] raises. A handler's
    [Raise] is an exception escaping it, which the framework answers with
    an HTTP 500. *)

Definition is_empty (s : pystr) : bool :=
  match s with [] => true | _ => false end.

Section Handlers.
Variable db : ucd.

(** [\d+]: the longest run of digits at the start. *)
Fixpoint re_digits (s : pystr) : pystr :=
  match s with
  | c :: r => if is_re_digit db c then c :: re_digits r else []
  | [] => []
  end.

(** The pattern tried at the start of [url]. *)
Definition extract_tweet_id_at (url : pystr) : option pystr :=
  if prefixb (u "/status/") url then
    match re_digits (skipn 8 url) with [] => None | d => Some d end
  else None.

(** [re.search(r"/status/(\d+)", url)]: the leftmost match, [\d+]
    greedy; [group(1)] or [None]. *)
Fixpoint extract_tweet_id_from_url (url : pystr) : option pystr :=
  match url with
  | [] => None
  | _ :: rest =>
      match extract_tweet_id_at url with
      | Some d => Some d
      | None => extract_tweet_id_from_url rest
      end
  end.

Definition verify_agent_application (cfg : config) (body : option json)
  : M VerificationResponse :=
  match body with
  | None => ret (resp invalid (Some (u "Invalid JSON body")))
  | Some body =>
    email <- get_str_field db body (u "email") ;;
    if is_empty email then ret (resp invalid (Some (u "Missing email"))) else
    match sheets_service cfg with
    | None => ret (resp invalid (Some (u "Google Sheets integration not configured")))
    | Some _ =>
      if negb (truthy_id (AGENT_SHEET_ID cfg))
      then ret (resp invalid (Some (u "Agent sheet ID not configured"))) else
      try_except (
        found <- is_email_in_sheet db (sheets_service cfg) email
                   (AGENT_SHEET_ID cfg) (AGENT_EMAIL_COLUMN cfg) ;;
        ret (resp (JObj [(u "isValid", JBool found);
                         (u "details", JObj [(u "email", JStr email);
                                             (u "found", JBool found)])]) None))
      (fun e =>
        match ekind e with
        | HttpError => ret (resp invalid (Some (u "Google Sheets API error: " ++ emsg e)))
        | _ => ret (resp invalid (Some (u "Error verifying email: " ++ emsg e)))
        end)
    end
  end.

Definition unreachable (st : Z) : json :=
  JObj [(u "isValid", JBool false);
        (u "details", JObj [(u "reason", JStr (u "unreachable"));
                            (u "status_code", JNum st)])].

Definition verify_content (http : pystr -> fetch_result) (body : option json)
  : M VerificationResponse :=
  match body with
  | None => ret (resp invalid (Some (u "Invalid JSON body")))
  | Some body =>
    link <- get_str_field db body (u "link") ;;
    if is_empty link
    then ret (resp invalid (Some (u "Missing 'link' in request body"))) else
    try_except (
      r <- client_get http link ;;
      let (status_code, txt) := r in
      if status_code >=? 400 then ret (resp (unreachable status_code) None) else
      let text := lower db txt in
      let hasAGV := contains (u "agv") text in
      let hasTREE := contains (u "tree") text in
      let hasRWA := contains (u "rwa") text in
      let hasTag := contains (u "@agvprotocol") text in
      let is_valid := hasAGV && hasTREE && hasRWA && hasTag in
      ret (resp (JObj [(u "isValid", JBool is_valid);
                       (u "details", JObj [(u "hasAGV", JBool hasAGV);
                                           (u "hasTREE", JBool hasTREE);
                                           (u "hasRWA", JBool hasRWA);
                                           (u "hasTag", JBool hasTag)])]) None))
    (fun e => ret (resp invalid (Some (u "Fetch error: " ++ emsg e))))
  end.

Definition verify_share_nft (http : pystr -> fetch_result) (body : option json)
  : M VerificationResponse :=
  match body with
  | None => ret (resp invalid (Some (u "Invalid JSON body")))
  | Some body =>
    tweet_url <- get_str_field db body (u "tweetUrl") ;;
    if is_empty tweet_url
    then ret (resp invalid (Some (u "Missing 'tweetUrl' in request body"))) else
    match extract_tweet_id_from_url tweet_url with
    | None => ret (resp invalid (Some (u "Invalid X post URL")))
    | Some _ =>
      try_except (
        r <- client_get http tweet_url ;;
        let (status_code, txt) := r in
        if status_code >=? 400 then ret (resp (unreachable status_code) None) else
        let text := lower db txt in
        let has_hashtags := forallb (fun tag => contains tag text)
                              [u "#agv"; u "#tree"; u "#rwa"] in
        let has_mention := contains (u "@agvprotocol") text in
        let has_media := has_hashtags && has_mention in
        let is_valid := has_hashtags && has_mention && has_media in
        ret (resp (JObj [(u "isValid", JBool is_valid);
                         (u "details", JObj [(u "has_hashtags", JBool has_hashtags);
                                             (u "has_mention", JBool has_mention);
                                             (u "has_media", JBool has_media)])]) None))
      (fun e => ret (resp invalid (Some (u "Verification error: " ++ emsg e))))
    end
  end.

(** GET /verify-wallet: [address] is the query parameter, [None] when
    absent. *)
Definition verify_wallet (cfg : config) (address : option pystr)
  : M VerificationResponse :=
  match address with
  | None | Some [] => ret (resp invalid (Some (u "Missing 'address' parameter")))
  | Some address =>
    match sheets_service cfg with
    | None => ret (resp invalid (Some (u "Google Sheets integration not configured")))
    | Some _ =>
      if negb (truthy_id (WALLET_SHEET_ID cfg))
      then ret (resp invalid (Some (u "Wallet sheet ID not configured"))) else
      try_except (
        found <- is_wallet_in_sheet db (sheets_service cfg) address
                   (WALLET_SHEET_ID cfg) (WALLET_ADDRESS_COLUMN cfg) ;;
        ret (resp (JObj [(u "isValid", JBool found);
                         (u "details", JObj [(u "wallet", JStr address);
                                             (u "found", JBool found)])]) None))
      (fun e =>
        match ekind e with
        | HttpError => ret (resp invalid (Some (u "Google Sheets API error: " ++ emsg e)))
        | _ => ret (resp invalid (Some (u "Error verifying wallet: " ++ emsg e)))
        end)
    end
  end.

End Handlers.

(** * Properties *)

(** ** Generic facts *)

Lemma pystr_eqb_eq : forall a b, pystr_eqb a b = true <-> a = b.
Proof.
  induction a as [|x a IH]; destruct b as [|y b]; simpl; try (split; congruence).
  rewrite andb_true_iff, Z.eqb_eq, IH. split; [intros [-> ->] | intros H; inversion H]; auto.
Qed.

Lemma fold_index_ge : forall l acc,
  0 <= acc -> Forall (fun c => 65 <= c) l -> acc <= fold_index acc l.
Proof.
  induction l as [|c l IH]; intros acc Hacc Hl; simpl; [lia|].
  inversion Hl as [|? ? Hc Hl']; subst.
  assert (0 <= acc * 26 + (c - 65 + 1)) as H0 by lia.
  pose proof (IH _ H0 Hl'). lia.
Qed.

Section ColumnFacts.
Variable db : ucd.
Hypothesis alpha_from_A : forall c, isalpha db c = true -> 65 <= c.

Lemma column_index_nonneg : forall letter ci,
  column_letter_to_index db letter = Ok ci -> 0 <= ci.
Proof.
  unfold column_letter_to_index; intros letter ci.
  destruct (py_strip db (py_upper db letter)) as [|c r] eqn:E; simpl; [discriminate|].
  destruct (isalpha db c && forallb (isalpha db) r) eqn:Ha; simpl; [|discriminate].
  intros H; inversion H; subst; clear H.
  apply andb_true_iff in Ha as [Hc Hr].
  apply alpha_from_A in Hc.
  assert (Forall (fun c => 65 <= c) r) as Hr'.
  { apply Forall_forall; intros x Hx. apply alpha_from_A.
    rewrite forallb_forall in Hr; auto. }
  assert (0 <= c - 65 + 1) as H0 by lia.
  pose proof (fold_index_ge r _ H0 Hr'). lia.
Qed.

End ColumnFacts.

Lemma py_isalpha_from_A : forall c, isalpha py_ucd c = true -> 65 <= c.
Proof.
  intros c; simpl; unfold py_isalpha, in_range; intros H.
  repeat match goal with
         | H : _ || _ = true |- _ => apply orb_true_iff in H; destruct H as [H|H]
         | H : _ && _ = true |- _ => apply andb_true_iff in H; destruct H as [H _]
         end;
    first [apply Z.leb_le in H | apply Z.eqb_eq in H]; lia.
Qed.

(** ** The row scan *)

Definition row_hit (db : ucd) (ci : Z) (target : pystr) (row : list pystr) : bool :=
  match nth_error row (Z.to_nat ci) with
  | Some cell => pystr_eqb (norm db cell) target
  | None => false
  end.

Lemma scan_rows_existsb : forall db ci target rows,
  0 <= ci ->
  scan_rows db ci target rows = ([], Ok (existsb (row_hit db ci target) rows)).
Proof.
  intros db ci target rows Hci.
  induction rows as [|row rows IH]; [reflexivity|].
  cbn [scan_rows existsb]. unfold row_hit at 1.
  destruct (Z.of_nat (List.length row) >? ci) eqn:Hlen.
  - apply Z.gtb_lt in Hlen.
    destruct (nth_error row (Z.to_nat ci)) as [cell|] eqn:Hn.
    + unfold getitem.
      replace (ci <? 0) with false by (symmetry; apply Z.ltb_ge; lia).
      replace ((0 <=? ci) && (ci <? Z.of_nat (List.length row))) with true
        by (symmetry; apply andb_true_iff; split; [apply Z.leb_le | apply Z.ltb_lt]; lia).
      rewrite Hn. cbn.
      destruct (pystr_eqb (norm db cell) target); [reflexivity|].
      rewrite IH. reflexivity.
    + apply nth_error_None in Hn. lia.
  - rewrite Z.gtb_ltb, Z.ltb_ge in Hlen.
    replace (nth_error row (Z.to_nat ci)) with (@None pystr)
      by (symmetry; apply nth_error_None; lia).
    exact IH.
Qed.

Lemma row_hit_spec : forall db ci target row,
  row_hit db ci (norm db target) row = true <->
  exists cell, nth_error row (Z.to_nat ci) = Some cell /\ norm db cell = norm db target.
Proof.
  intros. unfold row_hit. destruct (nth_error row (Z.to_nat ci)) as [cell|].
  - rewrite pystr_eqb_eq. split; [eauto | intros [c [Hc Hn]]; inversion Hc; subst; auto].
  - split; [discriminate | intros [c [Hc _]]; discriminate].
Qed.

(** A configured lookup whose two remote calls succeed and whose column
    letter is valid, computed once and for all. *)
Lemma lookup_configured : forall db api sid title titles tbl letter ci target,
  0 <= ci ->
  sid <> [] ->
  get_metadata api sid = Ok (Some (title :: titles)) ->
  get_values api sid (title ++ u "!A:ZZ") = Ok tbl ->
  column_letter_to_index db letter = Ok ci ->
  is_email_in_sheet db (Some api) target (Some sid) letter =
  ([SheetsMetadata sid; SheetsValues sid (title ++ u "!A:ZZ")],
   match (match tbl with Some v => v | None => [] end) with
   | [] => Ok false
   | header :: rows =>
       if ci >=? Z.of_nat (List.length header) then Ok false
       else Ok (existsb (row_hit db ci (norm db target)) rows)
   end).
Proof.
  intros db api sid title titles tbl letter ci target Hci Hsid Hm Hv Hc.
  destruct sid as [|c s]; [congruence|].
  unfold is_email_in_sheet, spreadsheets_get, values_get. cbn [truthy_id negb].
  rewrite Hm. cbn [bind first_sheet_title ret]. rewrite Hv. cbn [bind try_except app].
  destruct (match tbl with Some v => v | None => [] end) as [|header rows]; [reflexivity|].
  rewrite Hc. destruct (ci >=? Z.of_nat (List.length header)); [reflexivity|].
  rewrite scan_rows_existsb by exact Hci. reflexivity.
Qed.

Lemma email_wallet_same : forall db svc target sid letter,
  is_email_in_sheet db svc target sid letter = is_wallet_in_sheet db svc target sid letter.
Proof. reflexivity. Qed.

(** ** C1: the sheet lookup *)

(** Some cell at the resolved index, trimmed and lowercased, equals the
    trimmed, lowercased target. *)
Definition cell_matches (db : ucd) (ci : Z) (target : pystr) (row : list pystr) : Prop :=
  exists cell, nth_error row (Z.to_nat ci) = Some cell /\ norm db cell = norm db target.

(** The lookup contract of the spec, for the answer [r] of a lookup on
    the table [values] at the resolved column index [ci]. *)
Definition lookup_contract (db : ucd) (ci : Z) (target : pystr)
    (values : list (list pystr)) (r : res bool) : Prop :=
  (exists b, r = Ok b) /\
  (values = [] -> r = Ok false) /\
  (forall header rows, values = header :: rows ->
     (Z.of_nat (List.length header) <= ci -> r = Ok false) /\
     (ci < Z.of_nat (List.length header) ->
        (r = Ok true <-> Exists (cell_matches db ci target) rows)) /\
     (Forall (fun row => Z.of_nat (List.length row) <= ci) rows -> r = Ok false)).

(** C1. For a configured client and a non-empty sheet id whose metadata
    and value requests succeed, and a column letter resolving to index
    [ci], is_email_in_sheet and is_wallet_in_sheet return (never raise) a
    boolean that is true iff some data row (rows after the first) has a
    cell at [ci] equal to the target after strip().lower(); an empty
    table gives false; [ci] at or beyond the width of the first row gives
    false; rows too short to have a cell at [ci] never match. *)
Theorem sheet_lookup_spec : forall db api sid title titles tbl letter ci target lookup,
  (forall c, isalpha db c = true -> 65 <= c) ->
  (lookup = is_email_in_sheet db \/ lookup = is_wallet_in_sheet db) ->
  sid <> [] ->
  get_metadata api sid = Ok (Some (title :: titles)) ->
  get_values api sid (title ++ u "!A:ZZ") = Ok tbl ->
  column_letter_to_index db letter = Ok ci ->
  lookup_contract db ci target (match tbl with Some v => v | None => [] end)
    (snd (lookup (Some api) target (Some sid) letter)).
Proof.
  intros db api sid title titles tbl letter ci target lookup Halpha Hl Hsid Hm Hv Hc.
  pose proof (column_index_nonneg db Halpha letter ci Hc) as Hci.
  assert (Hr : lookup (Some api) target (Some sid) letter =
               is_email_in_sheet db (Some api) target (Some sid) letter)
    by (destruct Hl; subst; [reflexivity | symmetry; apply email_wallet_same]).
  rewrite Hr, (lookup_configured db api sid title titles tbl letter ci target Hci Hsid Hm Hv Hc).
  cbn [snd]. unfold lookup_contract.
  destruct (match tbl with Some v => v | None => [] end) as [|header rows].
  - split; [eauto | split; [reflexivity | intros h r' E; discriminate]].
  - split; [destruct (ci >=? _); eauto|].
    split; [discriminate|].
    intros h r' E; inversion E; subst h r'; clear E.
    split; [|split].
    + intros Hw. replace (ci >=? Z.of_nat (List.length header)) with true
        by (symmetry; apply Z.geb_le; lia). reflexivity.
    + intros Hw. replace (ci >=? Z.of_nat (List.length header)) with false
        by (symmetry; rewrite Z.geb_leb; apply Z.leb_gt; lia).
      split.
      * intros H; inversion H as [H']. apply existsb_exists in H' as [row [Hin Hrow]].
        apply Exists_exists. exists row. split; [exact Hin|].
        apply row_hit_spec. exact Hrow.
      * intros H. apply Exists_exists in H as [row [Hin Hrow]].
        f_equal. apply existsb_exists. exists row. split; [exact Hin|].
        apply row_hit_spec. exact Hrow.
    + intros Hshort. destruct (ci >=? Z.of_nat (List.length header)); [reflexivity|].
      f_equal. apply not_true_is_false. intros H.
      apply existsb_exists in H as [row [Hin Hrow]].
      apply row_hit_spec in Hrow as [cell [Hn _]].
      rewrite Forall_forall in Hshort. specialize (Hshort row Hin).
      assert (nth_error row (Z.to_nat ci) = None) by (apply nth_error_None; lia).
      congruence.
Qed.

Lemma sheet_lookup_spec_witness :
  lookup_contract py_ucd 1 (u "Foo@Bar.com ") demo_table
    (snd (is_email_in_sheet py_ucd (Some (demo_api demo_table)) (u "Foo@Bar.com ")
            (Some (u "S1")) (u "B"))).
Proof.
  apply (sheet_lookup_spec py_ucd (demo_api demo_table) (u "S1") (u "Sheet1") []
           (Some demo_table) (u "B") 1 (u "Foo@Bar.com ") (is_email_in_sheet py_ucd)).
  - exact py_isalpha_from_A.
  - left; reflexivity.
  - discriminate.
  - reflexivity.
  - reflexivity.
  - reflexivity.
Defined.

(** ** C10: the two lookups *)

(** C10. is_email_in_sheet and is_wallet_in_sheet compute the same
    function: on every client state, target, sheet id and column letter
    they make the same remote calls and return the same boolean or raise
    the same exception. *)
Theorem email_wallet_lookup_equiv : forall db svc target sid letter,
  is_email_in_sheet db svc target sid letter = is_wallet_in_sheet db svc target sid letter.
Proof.
  intros db [api|] target sid letter; [|reflexivity].
  unfold is_email_in_sheet, is_wallet_in_sheet.
  destruct (negb (truthy_id sid)); reflexivity.
Qed.

(** ** C6: an unconfigured lookup *)

Definition agent_config_error (cfg : config) : pystr :=
  match sheets_service cfg with
  | None => u "Google Sheets integration not configured"
  | Some _ => u "Agent sheet ID not configured"
  end.

Definition wallet_config_error (cfg : config) : pystr :=
  match sheets_service cfg with
  | None => u "Google Sheets integration not configured"
  | Some _ => u "Wallet sheet ID not configured"
  end.

(** C6 (as stated, refuted). With no client, is_email_in_sheet answers
    exactly what a configured lookup that finds nothing answers: [False],
    not a configuration error. *)
Lemma unconfigured_lookup_is_false :
  is_email_in_sheet py_ucd None (u "a@b.c") (Some (u "S1")) (u "B") = ([], Ok false) /\
  snd (is_email_in_sheet py_ucd (Some (demo_api demo_table)) (u "a@b.c")
         (Some (u "S1")) (u "B")) = Ok false.
Proof. split; reflexivity. Qed.

(** C6 (amended). When the client is unavailable or the sheet id is unset
    or empty, is_email_in_sheet and is_wallet_in_sheet return [False]
    without any remote call; the agent and wallet handlers test the same
    two conditions first and answer with a configuration-error envelope
    ([isValid] false, a "not configured" error), again without any remote
    call. *)
Theorem unconfigured_lookup_spec : forall db cfg sid target letter body email address,
  ((sheets_service cfg = None \/ truthy_id sid = false) ->
     is_email_in_sheet db (sheets_service cfg) target sid letter = ([], Ok false) /\
     is_wallet_in_sheet db (sheets_service cfg) target sid letter = ([], Ok false)) /\
  ((sheets_service cfg = None \/ truthy_id (AGENT_SHEET_ID cfg) = false) ->
     get_str_field db body (u "email") = ([], Ok email) -> email <> [] ->
     verify_agent_application db cfg (Some body) =
     ([], Ok (resp invalid (Some (agent_config_error cfg))))) /\
  ((sheets_service cfg = None \/ truthy_id (WALLET_SHEET_ID cfg) = false) ->
     address <> [] ->
     verify_wallet db cfg (Some address) =
     ([], Ok (resp invalid (Some (wallet_config_error cfg))))).
Proof.
  intros db cfg sid target letter body email address. split; [|split].
  - intros Hcfg.
    assert (Hl : is_email_in_sheet db (sheets_service cfg) target sid letter = ([], Ok false)).
    { unfold is_email_in_sheet.
      destruct Hcfg as [-> | Hid]; [reflexivity|].
      destruct (sheets_service cfg); [rewrite Hid; reflexivity | reflexivity]. }
    split; [exact Hl | rewrite <- email_wallet_same; exact Hl].
  - intros Hcfg Hb Ht. unfold verify_agent_application. rewrite Hb. cbn [bind].
    destruct email as [|c t]; [congruence|]. cbn [is_empty].
    unfold agent_config_error.
    destruct Hcfg as [Hs | Hid].
    + rewrite Hs. reflexivity.
    + destruct (sheets_service cfg); [|reflexivity]. rewrite Hid. reflexivity.
  - intros Hw Ht. unfold verify_wallet.
    destruct address as [|c t]; [congruence|].
    unfold wallet_config_error.
    destruct Hw as [Hs | Hid].
    + rewrite Hs. reflexivity.
    + destruct (sheets_service cfg); [|reflexivity]. rewrite Hid. reflexivity.
Qed.

Definition cfg_unconfigured : config := {|
  sheets_service := None;
  AGENT_SHEET_ID := None;
  WALLET_SHEET_ID := None;
  AGENT_EMAIL_COLUMN := u "F";
  WALLET_ADDRESS_COLUMN := u "S"
|}.

(** A client and an agent sheet id, but no wallet sheet id. *)
Definition cfg_wallet_unset : config := {|
  sheets_service := Some (demo_api demo_table);
  AGENT_SHEET_ID := Some (u "S1");
  WALLET_SHEET_ID := None;
  AGENT_EMAIL_COLUMN := u "B";
  WALLET_ADDRESS_COLUMN := u "S"
|}.

Lemma unconfigured_lookup_spec_witness :
  is_email_in_sheet py_ucd (sheets_service cfg_unconfigured) (u "a@b.c")
    (AGENT_SHEET_ID cfg_unconfigured) (u "F") = ([], Ok false) /\
  verify_wallet py_ucd cfg_wallet_unset (Some (u "0xabc")) =
  ([], Ok (resp invalid (Some (u "Wallet sheet ID not configured")))).
Proof.
  split.
  - exact (proj1 (proj1 (unconfigured_lookup_spec py_ucd cfg_unconfigured
             (AGENT_SHEET_ID cfg_unconfigured) (u "a@b.c") (u "F")
             (JObj [(u "email", JStr (u "a@b.c"))]) (u "a@b.c") (u "0xabc")) (or_introl eq_refl))).
  - exact (proj2 (proj2 (unconfigured_lookup_spec py_ucd cfg_wallet_unset
             (WALLET_SHEET_ID cfg_wallet_unset) (u "a@b.c") (u "S")
             (JObj [(u "email", JStr (u "a@b.c"))]) (u "a@b.c") (u "0xabc")))
             (or_intror eq_refl) ltac:(discriminate)).
Defined.

(** ** C7: Sheets API failures *)

(** A Sheets API failure: the metadata request raises, or it succeeds
    and the values request raises. *)
Definition api_fails (api : sheets_api) (sid : pystr) (e : exc) : Prop :=
  get_metadata api sid = Raise e \/
  exists title titles, get_metadata api sid = Ok (Some (title :: titles)) /\
                       get_values api sid (title ++ u "!A:ZZ") = Raise e.

Definition sheets_error_message (what : pystr) (e : exc) : pystr :=
  match ekind e with
  | HttpError => u "Google Sheets API error: " ++ emsg e
  | _ => u "Error verifying " ++ what ++ u ": " ++ emsg e
  end.

Lemma lookup_raises : forall db api sid letter target e,
  sid <> [] -> api_fails api sid e ->
  exists calls, is_email_in_sheet db (Some api) target (Some sid) letter = (calls, Raise e).
Proof.
  intros db api sid letter target e Hsid Hf.
  destruct sid as [|c s]; [congruence|].
  unfold is_email_in_sheet, spreadsheets_get, values_get. cbn [truthy_id negb].
  destruct Hf as [Hm | [title [titles [Hm Hv]]]].
  - rewrite Hm. eexists. reflexivity.
  - rewrite Hm. cbn [bind first_sheet_title ret]. rewrite Hv. eexists. reflexivity.
Qed.

(** C7. A Sheets API failure during a lookup (authentication, quota,
    missing spreadsheet, ...) is raised out of is_email_in_sheet and
    is_wallet_in_sheet unchanged, never turned into [False]; the agent and
    wallet handlers render it as an envelope whose error carries the
    exception's message. *)
Theorem lookup_api_failure_propagates : forall db cfg api sid target e,
  sid <> [] -> api_fails api sid e ->
  snd (is_email_in_sheet db (Some api) target (Some sid) (AGENT_EMAIL_COLUMN cfg)) = Raise e /\
  snd (is_wallet_in_sheet db (Some api) target (Some sid) (WALLET_ADDRESS_COLUMN cfg)) = Raise e /\
  (forall body, sheets_service cfg = Some api -> AGENT_SHEET_ID cfg = Some sid ->
     get_str_field db body (u "email") = ([], Ok target) -> target <> [] ->
     snd (verify_agent_application db cfg (Some body)) =
     Ok (resp invalid (Some (sheets_error_message (u "email") e)))) /\
  (sheets_service cfg = Some api -> WALLET_SHEET_ID cfg = Some sid -> target <> [] ->
     snd (verify_wallet db cfg (Some target)) =
     Ok (resp invalid (Some (sheets_error_message (u "wallet") e)))).
Proof.
  intros db cfg api sid target e Hsid Hf.
  destruct (lookup_raises db api sid (AGENT_EMAIL_COLUMN cfg) target e Hsid Hf) as [c1 H1].
  destruct (lookup_raises db api sid (WALLET_ADDRESS_COLUMN cfg) target e Hsid Hf) as [c2 H2].
  rewrite email_wallet_same in H2.
  split; [rewrite H1; reflexivity|]. split; [rewrite H2; reflexivity|]. split.
  - intros body Hs Hid Hb Ht. unfold verify_agent_application.
    rewrite Hb. cbn [bind]. destruct target as [|ch t]; [congruence|]. cbn [is_empty].
    rewrite Hs, Hid. destruct sid as [|c s]; [congruence|]. cbn [truthy_id negb].
    rewrite H1. cbn [bind try_except snd]. unfold sheets_error_message.
    destruct (ekind e); reflexivity.
  - intros Hs Hid Ht. unfold verify_wallet.
    destruct target as [|ch t]; [congruence|].
    rewrite Hs, Hid. destruct sid as [|c s]; [congruence|]. cbn [truthy_id negb].
    rewrite H2. cbn [bind try_except snd]. unfold sheets_error_message.
    destruct (ekind e); reflexivity.
Qed.

(** A spreadsheet the service account may not read. *)
Definition forbidden_api : sheets_api := {|
  get_metadata := fun _ => Raise (Exc HttpError (u "The caller does not have permission"));
  get_values := fun _ _ => Raise (Exc HttpError (u "The caller does not have permission"))
|}.

Definition cfg_forbidden : config := {|
  sheets_service := Some forbidden_api;
  AGENT_SHEET_ID := Some (u "S1");
  WALLET_SHEET_ID := Some (u "S1");
  AGENT_EMAIL_COLUMN := u "F";
  WALLET_ADDRESS_COLUMN := u "S"
|}.

Lemma lookup_api_failure_propagates_witness :
  u "S1" <> [] /\
  api_fails forbidden_api (u "S1") (Exc HttpError (u "The caller does not have permission")) /\
  snd (verify_wallet py_ucd cfg_forbidden (Some (u "0xabc"))) =
  Ok (resp invalid (Some (sheets_error_message (u "wallet")
                            (Exc HttpError (u "The caller does not have permission"))))).
Proof.
  assert (Hs : u "S1" <> []) by discriminate.
  assert (Hf : api_fails forbidden_api (u "S1")
                 (Exc HttpError (u "The caller does not have permission")))
    by (left; reflexivity).
  split; [exact Hs|]. split; [exact Hf|].
  apply (proj2 (proj2 (proj2 (lookup_api_failure_propagates py_ucd cfg_forbidden
           forbidden_api (u "S1") (u "0xabc") _ Hs Hf)))); [reflexivity | reflexivity | discriminate].
Defined.

(** ** C3: the /verify-content ruleset *)

Definition demo_body_link : json := JObj [(u "link", JStr (u "http://example.com/post"))].

(** The page of the spec's end-to-end example. *)
Definition demo_page : fetch_result :=
  Response 200 (u "<p>#AGV #Tree #RWA ... AGV Protocol is great</p>").

(** C3 (as stated, refuted). On the spec's example page (all four of
    "#agv", "#tree", "#rwa", "agv protocol"), /verify-content answers no
    [point]: it answers [isValid] false, because its ruleset is
    "agv", "tree", "rwa" and "@agvprotocol". *)
Lemma verify_content_no_point :
  snd (verify_content py_ucd (fun _ => demo_page) (Some demo_body_link)) =
  Ok (resp (JObj [(u "isValid", JBool false);
                  (u "details", JObj [(u "hasAGV", JBool true);
                                      (u "hasTREE", JBool true);
                                      (u "hasRWA", JBool true);
                                      (u "hasTag", JBool false)])]) None) /\
  snd (verify_content py_ucd (fun _ => demo_page) (Some demo_body_link)) <>
  Ok (resp (JObj [(u "point", JNum 500)]) None).
Proof.
  split; [vm_compute; reflexivity|].
  vm_compute. intros H. inversion H.
Qed.

Definition content_rules (text : pystr) : json :=
  JObj [(u "hasAGV", JBool (contains (u "agv") text));
        (u "hasTREE", JBool (contains (u "tree") text));
        (u "hasRWA", JBool (contains (u "rwa") text));
        (u "hasTag", JBool (contains (u "@agvprotocol") text))].

(** C3 (amended). For a page fetched with a status below 400,
    /verify-content fetches the link once and answers
    [{"isValid": v, "details": {hasAGV, hasTREE, hasRWA, hasTag}}] with no
    error, where [v] holds exactly when the lowercased page text contains
    each of "agv", "tree", "rwa" and "@agvprotocol"; no point value is
    returned. *)
Theorem verify_content_ruleset : forall db http body link st txt,
  get_str_field db body (u "link") = ([], Ok link) -> link <> [] ->
  http link = Response st txt -> st < 400 ->
  let text := lower db txt in
  verify_content db http (Some body) =
  ([HttpGet link],
   Ok (resp (JObj [(u "isValid",
                    JBool (contains (u "agv") text && contains (u "tree") text &&
                           contains (u "rwa") text && contains (u "@agvprotocol") text));
                   (u "details", content_rules text)]) None)).
Proof.
  intros db http body link st txt Hb Hl Hh Hst text.
  unfold verify_content. rewrite Hb. cbn [bind].
  destruct link as [|c l]; [congruence|]. cbn [is_empty].
  unfold client_get. rewrite Hh. cbn [bind try_except app].
  replace (st >=? 400) with false by (symmetry; rewrite Z.geb_leb; apply Z.leb_gt; lia).
  reflexivity.
Qed.

Lemma verify_content_ruleset_witness :
  get_str_field py_ucd demo_body_link (u "link") = ([], Ok (u "http://example.com/post")) /\
  verify_content py_ucd (fun _ => demo_page) (Some demo_body_link) =
  ([HttpGet (u "http://example.com/post")],
   Ok (resp (JObj [(u "isValid", JBool false);
                   (u "details", content_rules (lower py_ucd
                      (u "<p>#AGV #Tree #RWA ... AGV Protocol is great</p>")))]) None)).
Proof.
  assert (Hb : get_str_field py_ucd demo_body_link (u "link")
               = ([], Ok (u "http://example.com/post"))) by reflexivity.
  split; [exact Hb|].
  refine (verify_content_ruleset py_ucd (fun _ => demo_page) demo_body_link _ 200 _
            Hb _ eq_refl _); [discriminate | lia].
Defined.

(** ** C4: an unreachable page *)

(** C4. When the fetched response has a status code of 400 or more,
    /verify-content and /verify-share-nft (for a URL with a post id)
    return, without raising, the envelope
    [{"isValid": false, "details": {"reason": "unreachable",
    "status_code": st}}] recording the status code. *)
Theorem unreachable_status_reported : forall db http body url st txt,
  http url = Response st txt -> 400 <= st -> url <> [] ->
  (get_str_field db body (u "link") = ([], Ok url) ->
     verify_content db http (Some body) = ([HttpGet url], Ok (resp (unreachable st) None))) /\
  (get_str_field db body (u "tweetUrl") = ([], Ok url) ->
     extract_tweet_id_from_url db url <> None ->
     verify_share_nft db http (Some body) = ([HttpGet url], Ok (resp (unreachable st) None))).
Proof.
  intros db http body url st txt Hh Hst Hu.
  assert (Hge : (st >=? 400) = true) by (apply Z.geb_le; lia).
  destruct url as [|c l]; [congruence|]. split.
  - intros Hb. unfold verify_content. rewrite Hb. cbn [bind is_empty].
    unfold client_get. rewrite Hh. cbn [bind try_except app]. rewrite Hge. reflexivity.
  - intros Hb Hx. unfold verify_share_nft. rewrite Hb. cbn [bind is_empty].
    destruct (extract_tweet_id_from_url db (c :: l)); [|congruence].
    unfold client_get. rewrite Hh. cbn [bind try_except app]. rewrite Hge. reflexivity.
Qed.

Definition demo_body_tweet : json :=
  JObj [(u "tweetUrl", JStr (u "https://x.com/user/status/12345"))].

Lemma unreachable_status_reported_witness :
  verify_share_nft py_ucd (fun _ => Response 404 (u "Not Found")) (Some demo_body_tweet) =
  ([HttpGet (u "https://x.com/user/status/12345")], Ok (resp (unreachable 404) None)).
Proof.
  refine (proj2 (unreachable_status_reported py_ucd (fun _ => Response 404 (u "Not Found"))
            demo_body_tweet (u "https://x.com/user/status/12345") 404 (u "Not Found")
            eq_refl _ _) _ _).
  - lia.
  - discriminate.
  - reflexivity.
  - vm_compute. discriminate.
Defined.

(** ** C5: the post id *)

Lemma prefixb_app : forall p s, prefixb p s = true <-> exists r, s = p ++ r.
Proof.
  induction p as [|x p IH]; intros s; simpl.
  - split; eauto.
  - destruct s as [|y s].
    + split; [discriminate | intros [r H]; discriminate].
    + rewrite andb_true_iff, Z.eqb_eq, IH. split.
      * intros [-> [r ->]]. eauto.
      * intros [r H]. inversion H; subst. eauto.
Qed.

Section TweetId.
Variable db : ucd.

Definition digit_tail (rest : pystr) : Prop :=
  match rest with d :: _ => is_re_digit db d = false | [] => True end.

Lemma re_digits_split : forall s,
  exists rest, s = re_digits db s ++ rest /\ digit_tail rest /\
               Forall (fun c => is_re_digit db c = true) (re_digits db s).
Proof.
  induction s as [|c s IH]; simpl.
  - exists []. simpl. auto.
  - destruct (is_re_digit db c) eqn:Hc.
    + destruct IH as [rest [E [Ht Hd]]]. exists rest. simpl. rewrite <- E. auto.
    + exists (c :: s). simpl. auto.
Qed.

Lemma status_len : forall r, skipn 8 (u "/status/" ++ r) = r.
Proof. reflexivity. Qed.

Lemma extract_some : forall url id,
  extract_tweet_id_from_url db url = Some id ->
  exists pre rest, url = pre ++ u "/status/" ++ id ++ rest /\ id <> [] /\
                   Forall (fun c => is_re_digit db c = true) id /\ digit_tail rest.
Proof.
  induction url as [|x url IH]; intros id H; [discriminate|].
  cbn [extract_tweet_id_from_url] in H.
  destruct (extract_tweet_id_at db (x :: url)) as [d|] eqn:Ha.
  - inversion H; subst d; clear H.
    unfold extract_tweet_id_at in Ha.
    destruct (prefixb (u "/status/") (x :: url)) eqn:Hp; [|discriminate].
    apply prefixb_app in Hp as [r Er]. rewrite Er, status_len in Ha.
    destruct (re_digits_split r) as [rest [E [Ht Hd]]].
    destruct (re_digits db r) as [|c cs] eqn:Hr; [discriminate|].
    inversion Ha; subst id. exists [], rest. rewrite Er. simpl.
    repeat split; auto; [|discriminate].
    rewrite E at 1. reflexivity.
  - destruct (IH id H) as [pre [rest [E Hrest]]].
    exists (x :: pre), rest. rewrite E. auto.
Qed.

Lemma extract_none_iff : forall url,
  extract_tweet_id_from_url db url = None <->
  ~ exists pre d rest, url = pre ++ u "/status/" ++ d :: rest /\ is_re_digit db d = true.
Proof.
  intros url. split.
  - induction url as [|x url IH]; intros H [pre [d [rest [E Hd]]]].
    + destruct pre; discriminate.
    + cbn [extract_tweet_id_from_url] in H.
      destruct (extract_tweet_id_at db (x :: url)) eqn:Ha; [discriminate|].
      destruct pre as [|y pre].
      * rewrite E in Ha. unfold extract_tweet_id_at in Ha.
        simpl in Ha. rewrite Hd in Ha. discriminate.
      * apply IH; [exact H|]. exists pre, d, rest. split; [|exact Hd].
        inversion E. reflexivity.
  - intros Hno. destruct (extract_tweet_id_from_url db url) as [id|] eqn:He; [|reflexivity].
    exfalso. apply Hno.
    destruct (extract_some url id He) as [pre [rest [E [Hne [Hd _]]]]].
    destruct id as [|d ds]; [congruence|]. inversion Hd; subst.
    exists pre, d, (ds ++ rest). split; [reflexivity | assumption].
Qed.

End TweetId.

(** C5. The post id is the run of digits after the leftmost "/status/"
    that is followed by a digit ("https://x.com/user/status/12345" gives
    "12345"); there is none exactly when no "/status/" is followed by a
    digit (as in "https://x.com/user"), and then /verify-share-nft answers
    the validation error "Invalid X post URL" without any fetch, an error
    distinct from the "Verification error: ..." of a failed fetch. *)
Theorem tweet_id_extraction :
  extract_tweet_id_from_url py_ucd (u "https://x.com/user/status/12345") = Some (u "12345") /\
  extract_tweet_id_from_url py_ucd (u "https://x.com/user") = None /\
  forall db,
  (forall url id, extract_tweet_id_from_url db url = Some id ->
     exists pre rest, url = pre ++ u "/status/" ++ id ++ rest /\ id <> [] /\
                      Forall (fun c => is_re_digit db c = true) id /\ digit_tail db rest) /\
  (forall url, extract_tweet_id_from_url db url = None <->
     ~ exists pre d rest, url = pre ++ u "/status/" ++ d :: rest /\ is_re_digit db d = true) /\
  (forall http body tweet_url,
     get_str_field db body (u "tweetUrl") = ([], Ok tweet_url) -> tweet_url <> [] ->
     extract_tweet_id_from_url db tweet_url = None ->
     verify_share_nft db http (Some body) =
     ([], Ok (resp invalid (Some (u "Invalid X post URL"))))) /\
  (forall m, u "Invalid X post URL" <> u "Verification error: " ++ m).
Proof.
  split; [reflexivity|]. split; [reflexivity|].
  intros db. split; [exact (extract_some db)|]. split; [exact (extract_none_iff db)|].
  split.
  - intros http body tweet_url Hb Ht Hx. unfold verify_share_nft. rewrite Hb.
    cbn [bind]. destruct tweet_url as [|c t]; [congruence|]. cbn [is_empty].
    rewrite Hx. reflexivity.
  - intros m H. inversion H.
Qed.

Definition demo_body_profile : json := JObj [(u "tweetUrl", JStr (u "https://x.com/user"))].

Lemma tweet_id_extraction_witness :
  verify_share_nft py_ucd (fun _ => demo_page) (Some demo_body_profile) =
  ([], Ok (resp invalid (Some (u "Invalid X post URL")))).
Proof.
  apply (proj1 (proj2 (proj2 (proj2 (proj2 tweet_id_extraction) py_ucd)))
           (fun _ => demo_page) demo_body_profile (u "https://x.com/user")).
  - reflexivity.
  - discriminate.
  - reflexivity.
Defined.

(** ** C2 and C9: column letters outside A-Z *)

(** C2 (code defect). "É" (U+00C9) is alphabetic and already upper case,
    so column_letter_to_index accepts it and maps it, through
    [ord(c) - ord('A') + 1 = 137], to the index of "EG"; the spec's
    examples are right. *)
Theorem column_index_collision :
  column_letter_to_index py_ucd [201] = Ok 136 /\
  column_letter_to_index py_ucd (u "EG") = Ok 136 /\
  py_strip py_ucd (py_upper py_ucd [201]) = [201] /\
  map (fun s => column_letter_to_index py_ucd (u s)) ["A"; "Z"; "AA"; "AB"; "F"; "S"]%string
  = [Ok 0; Ok 25; Ok 26; Ok 27; Ok 5; Ok 18].
Proof. repeat split; reflexivity. Qed.

(** C9 (code defect). U+0345 (combining ypogegrammeni) is not
    alphabetic, but its upper case U+0399 is, and the check runs on the
    uppercased text: column_letter_to_index returns 856 instead of
    raising; the spec's examples "", "1", "A1" and the em dash (U+2014) do
    raise the ValueError. *)
Theorem column_index_nonalpha_accepted :
  isalpha py_ucd 837 = false /\
  column_letter_to_index py_ucd [837] = Ok 856 /\
  (forall s, In s [[]; u "1"; u "A1"; [8212]] ->
     exists m, column_letter_to_index py_ucd s = Raise (Exc ValueError m)).
Proof.
  split; [reflexivity|]. split; [reflexivity|].
  intros s Hs. repeat (destruct Hs as [<- | Hs]; [eexists; reflexivity|]). destruct Hs.
Qed.

(** ** C8: request bodies that are not JSON objects *)

(** C8 (code defect). [body.get] and [.strip()] run outside any [try]:
    a JSON body that is not an object, or a field that is not a string,
    raises AttributeError out of the handler, which the framework answers
    with an HTTP 500 instead of an envelope. A body that is an object
    missing the field does get the envelope, with no remote call. *)
Theorem handler_exception_escapes :
  verify_content py_ucd (fun _ => demo_page) (Some (JArr [])) =
  ([], Raise (Exc AttributeError (u "'list' object has no attribute 'get'"))) /\
  verify_share_nft py_ucd (fun _ => demo_page) (Some JNull) =
  ([], Raise (Exc AttributeError (u "'NoneType' object has no attribute 'get'"))) /\
  verify_agent_application py_ucd cfg_forbidden (Some (JObj [(u "email", JNum 5)])) =
  ([], Raise (Exc AttributeError (u "'int' object has no attribute 'strip'"))) /\
  verify_content py_ucd (fun _ => demo_page) (Some (JObj [])) =
  ([], Ok (resp invalid (Some (u "Missing 'link' in request body")))).
Proof. repeat split; reflexivity. Qed.

(** * Further properties of the code *)

(** ** Column letters made of A-Z *)

Definition is_AZ (c : Z) : bool := in_range 65 90 c.

(** The integers [lo], ..., [lo + n - 1]. *)
Definition zrange (lo : Z) (n : nat) : list Z :=
  map (fun k => lo + Z.of_nat k) (seq 0 n).

Lemma zrange_check : forall (f : Z -> bool) lo n,
  forallb f (zrange lo n) = true -> forall c, lo <= c < lo + Z.of_nat n -> f c = true.
Proof.
  intros f lo n H c Hc. rewrite forallb_forall in H. apply H.
  unfold zrange. apply in_map_iff. exists (Z.to_nat (c - lo)). split; [lia|].
  apply in_seq. lia.
Qed.

Lemma in_range_true : forall lo hi c, in_range lo hi c = true -> lo <= c <= hi.
Proof. unfold in_range; intros lo hi c H. apply andb_true_iff in H as [H1 H2]. lia. Qed.

Lemma AZ_facts : forall c, is_AZ c = true ->
  py_upper_char c = [c] /\ py_isspace c = false /\ py_isalpha c = true.
Proof.
  intros c Hc. apply in_range_true in Hc.
  assert (H : forallb (fun c => pystr_eqb (py_upper_char c) [c] && negb (py_isspace c)
                                && py_isalpha c) (zrange 65 26) = true) by reflexivity.
  pose proof (zrange_check _ _ _ H c ltac:(simpl; lia)) as Hc'.
  apply andb_true_iff in Hc' as [Hc' Ha]. apply andb_true_iff in Hc' as [Hu Hs].
  apply pystr_eqb_eq in Hu. apply negb_true_iff in Hs. auto.
Qed.

Lemma lstrip_nonspace : forall db c r, isspace db c = false -> lstrip db (c :: r) = c :: r.
Proof. intros db c r H. simpl. rewrite H. reflexivity. Qed.

Lemma lstrip_spaces_app : forall db p r,
  forallb (isspace db) p = true -> lstrip db (p ++ r) = lstrip db r.
Proof.
  induction p as [|c p IH]; intros r H; [reflexivity|].
  simpl in H. apply andb_true_iff in H as [Hc Hp]. simpl. rewrite Hc. auto.
Qed.

(** [strip()] removes the spaces around a text that starts and ends with
    a non-space. *)
Lemma strip_padded : forall db p s q c d,
  forallb (isspace db) p = true -> forallb (isspace db) q = true ->
  hd_error s = Some c -> hd_error (rev s) = Some d ->
  isspace db c = false -> isspace db d = false ->
  py_strip db (p ++ s ++ q) = s.
Proof.
  intros db p s q c d Hp Hq Hc Hd Hsc Hsd. unfold py_strip.
  rewrite lstrip_spaces_app by exact Hp.
  destruct s as [|c' s']; [discriminate|]. inversion Hc; subst c'.
  rewrite <- app_comm_cons, lstrip_nonspace by exact Hsc.
  rewrite app_comm_cons, rev_app_distr, lstrip_spaces_app by (rewrite forallb_forall in *;
    intros x Hx; apply Hq; apply in_rev; exact Hx).
  destruct (rev (c :: s')) as [|d' r] eqn:E; [discriminate|].
  inversion Hd; subst d'. rewrite lstrip_nonspace by exact Hsd.
  rewrite <- E, rev_involutive. reflexivity.
Qed.

Lemma upper_AZ : forall s, forallb is_AZ s = true -> py_upper py_ucd s = s.
Proof.
  induction s as [|c s IH]; intros H; [reflexivity|].
  simpl in H. apply andb_true_iff in H as [Hc Hs].
  unfold py_upper in *. cbn [flat_map].
  change (upper_char py_ucd c) with (py_upper_char c).
  rewrite (proj1 (AZ_facts c Hc)), IH by exact Hs. reflexivity.
Qed.

Lemma hd_error_in : forall (s : list Z) c, hd_error s = Some c -> In c s.
Proof. intros [|x s] c H; inversion H; simpl; auto. Qed.

Lemma column_index_AZ : forall s, s <> [] -> forallb is_AZ s = true ->
  column_letter_to_index py_ucd s = Ok (fold_index 0 s - 1).
Proof.
  intros s Hne Hs. unfold column_letter_to_index.
  rewrite upper_AZ by exact Hs.
  destruct s as [|c s']; [congruence|].
  destruct (rev (c :: s')) as [|d r] eqn:E.
  { apply (f_equal (@List.length Z)) in E. rewrite length_rev in E. discriminate. }
  assert (Hin : forall x, In x (c :: s') -> is_AZ x = true) by (apply forallb_forall; exact Hs).
  assert (Hd : In d (c :: s')) by (apply in_rev; rewrite E; left; reflexivity).
  pose proof (strip_padded py_ucd [] (c :: s') [] c d eq_refl eq_refl eq_refl
                (f_equal (@hd_error Z) E) (proj1 (proj2 (AZ_facts _ (Hin c (or_introl eq_refl)))))
                (proj1 (proj2 (AZ_facts _ (Hin d Hd))))) as Hst.
  rewrite app_nil_r in Hst. simpl app in Hst. rewrite Hst.
  replace (forallb (isalpha py_ucd) (c :: s')) with true.
  - reflexivity.
  - symmetry. apply forallb_forall. intros x Hx. apply (AZ_facts _ (Hin x Hx)).
Qed.

(** The bijective base-26 value, least significant letter first. *)
Fixpoint base26_rev (r : pystr) : Z :=
  match r with
  | [] => 0
  | c :: r' => base26_rev r' * 26 + (c - 65 + 1)
  end.

Lemma fold_index_app : forall s c acc,
  fold_index acc (s ++ [c]) = fold_index acc s * 26 + (c - 65 + 1).
Proof. induction s as [|x s IH]; intros c acc; simpl; [reflexivity | apply IH]. Qed.

Lemma fold_index_base26 : forall s, fold_index 0 s = base26_rev (rev s).
Proof.
  induction s as [|c s IH] using rev_ind; [reflexivity|].
  rewrite fold_index_app, rev_app_distr, IH. reflexivity.
Qed.

Lemma base26_rev_pos : forall r, forallb is_AZ r = true -> r <> [] -> 1 <= base26_rev r.
Proof.
  induction r as [|c r IH]; intros H Hne; [congruence|].
  simpl in H. apply andb_true_iff in H as [Hc Hr]. apply in_range_true in Hc. simpl.
  destruct r as [|c' r']; [simpl; lia|].
  specialize (IH Hr ltac:(discriminate)). lia.
Qed.

Lemma base26_rev_inj : forall r1 r2, forallb is_AZ r1 = true -> forallb is_AZ r2 = true ->
  base26_rev r1 = base26_rev r2 -> r1 = r2.
Proof.
  induction r1 as [|c1 r1 IH]; intros r2 H1 H2 E.
  - destruct r2 as [|c2 r2]; [reflexivity|].
    pose proof (base26_rev_pos (c2 :: r2) H2 ltac:(discriminate)). simpl in *. lia.
  - destruct r2 as [|c2 r2].
    + pose proof (base26_rev_pos (c1 :: r1) H1 ltac:(discriminate)). simpl in *. lia.
    + simpl in H1, H2, E.
      apply andb_true_iff in H1 as [Hc1 Hr1]. apply andb_true_iff in H2 as [Hc2 Hr2].
      apply in_range_true in Hc1. apply in_range_true in Hc2.
      assert (c1 = c2 /\ base26_rev r1 = base26_rev r2) as [-> Er] by lia.
      rewrite (IH r2 Hr1 Hr2 Er). reflexivity.
Qed.

Lemma base26_rev_surj : forall (k : nat) m, 1 <= m <= Z.of_nat k ->
  exists r, forallb is_AZ r = true /\ r <> [] /\ base26_rev r = m.
Proof.
  induction k as [|k IH]; intros m Hm; [lia|].
  pose proof (Z.div_mod (m - 1) 26 ltac:(lia)) as Hdm.
  pose proof (Z.mod_pos_bound (m - 1) 26 ltac:(lia)) as Hb.
  set (q := (m - 1) / 26) in *. set (d := (m - 1) mod 26) in *.
  assert (Hq : 0 <= q) by (apply Z.div_pos; lia).
  destruct (Z.eq_dec q 0) as [Hq0 | Hq0].
  - exists [65 + d]. split; [|split; [discriminate|]].
    + cbn [forallb]. unfold is_AZ, in_range. apply andb_true_iff; split; [|reflexivity].
      apply andb_true_iff; split; apply Z.leb_le; lia.
    + cbn [base26_rev]. lia.
  - destruct (IH q ltac:(lia)) as [r [Hr [Hne Hv]]].
    exists ((65 + d) :: r). split; [|split; [discriminate|]].
    + cbn [forallb]. rewrite Hr, andb_true_r. unfold is_AZ, in_range.
      apply andb_true_iff; split; apply Z.leb_le; lia.
    + cbn [base26_rev]. rewrite Hv. lia.
Qed.

Lemma forallb_rev : forall (f : Z -> bool) l, forallb f (rev l) = forallb f l.
Proof.
  intros f l. apply eq_true_iff_eq. rewrite !forallb_forall.
  split; intros H x Hx; apply H; [apply in_rev in Hx | apply in_rev]; exact Hx.
Qed.

(** X1. On non-empty strings of the letters A-Z, column_letter_to_index
    is injective and reaches every non-negative index. *)
Theorem column_index_AZ_bijective :
  (forall s1 s2, s1 <> [] -> s2 <> [] -> forallb is_AZ s1 = true -> forallb is_AZ s2 = true ->
     column_letter_to_index py_ucd s1 = column_letter_to_index py_ucd s2 -> s1 = s2) /\
  (forall n, 0 <= n ->
     exists s, s <> [] /\ forallb is_AZ s = true /\ column_letter_to_index py_ucd s = Ok n).
Proof.
  split.
  - intros s1 s2 Hn1 Hn2 H1 H2 E.
    rewrite (column_index_AZ s1 Hn1 H1), (column_index_AZ s2 Hn2 H2) in E.
    inversion E as [E'].
    assert (E2 : base26_rev (rev s1) = base26_rev (rev s2))
      by (rewrite <- !fold_index_base26; lia).
    apply base26_rev_inj in E2; [|rewrite forallb_rev; exact H1 | rewrite forallb_rev; exact H2].
    rewrite <- (rev_involutive s1), <- (rev_involutive s2), E2. reflexivity.
  - intros n Hn.
    destruct (base26_rev_surj (Z.to_nat (n + 1)) (n + 1) ltac:(lia)) as [r [Hr [Hne Hv]]].
    exists (rev r). split; [|split].
    + intros E. apply Hne. rewrite <- (rev_involutive r), E. reflexivity.
    + rewrite forallb_rev. exact Hr.
    + rewrite column_index_AZ.
      * rewrite fold_index_base26, rev_involutive, Hv. f_equal. lia.
      * intros E. apply Hne. rewrite <- (rev_involutive r), E. reflexivity.
      * rewrite forallb_rev. exact Hr.
Qed.

Lemma column_index_AZ_bijective_witness :
  0 <= 701 /\ exists s, s <> [] /\ forallb is_AZ s = true /\
                        column_letter_to_index py_ucd s = Ok 701.
Proof.
  assert (H : 0 <= 701) by lia. split; [exact H|].
  exact (proj2 column_index_AZ_bijective 701 H).
Defined.






(** ** The content checks *)

Lemma bind_ret : forall A B (a : A) (f : A -> M B), bind (ret a) f = f a.
Proof. intros. unfold bind, ret. destruct (f a). reflexivity. Qed.

Definition share_rules (text : pystr) : bool :=
  contains (u "#agv") text && contains (u "#tree") text &&
  contains (u "#rwa") text && contains (u "@agvprotocol") text.

(** X3. For a post URL with an id whose page is fetched with a status
    below 400, /verify-share-nft fetches that URL once and answers
    [isValid] true exactly when the lowercased page contains "#agv",
    "#tree", "#rwa" and "@agvprotocol"; [has_media] is not a separate
    check, it always equals [has_hashtags && has_mention]. *)
Theorem verify_share_nft_ruleset : forall db http body url id st txt,
  get_str_field db body (u "tweetUrl") = ([], Ok url) -> url <> [] ->
  extract_tweet_id_from_url db url = Some id ->
  http url = Response st txt -> st < 400 ->
  let text := lower db txt in
  let has_hashtags := contains (u "#agv") text && contains (u "#tree") text &&
                      contains (u "#rwa") text in
  let has_mention := contains (u "@agvprotocol") text in
  verify_share_nft db http (Some body) =
  ([HttpGet url],
   Ok (resp (JObj [(u "isValid", JBool (share_rules text));
                   (u "details", JObj [(u "has_hashtags", JBool has_hashtags);
                                       (u "has_mention", JBool has_mention);
                                       (u "has_media", JBool (has_hashtags && has_mention))])])
            None)).
Proof.
  intros db http body url id st txt Hb Hu Hx Hh Hst text hh hm.
  unfold verify_share_nft. rewrite Hb. cbn [bind].
  destruct url as [|c l]; [congruence|]. cbn [is_empty]. rewrite Hx.
  unfold client_get. rewrite Hh. cbn [bind try_except app].
  replace (st >=? 400) with false by (symmetry; rewrite Z.geb_leb; apply Z.leb_gt; lia).
  unfold share_rules. subst hh hm text. cbn [forallb].
  destruct (contains (u "#agv") (lower db txt)), (contains (u "#tree") (lower db txt)),
           (contains (u "#rwa") (lower db txt)), (contains (u "@agvprotocol") (lower db txt));
    reflexivity.
Qed.

Lemma verify_share_nft_ruleset_witness :
  verify_share_nft py_ucd (fun _ => Response 200 (u "#AGV #Tree #RWA @AGVProtocol"))
    (Some demo_body_tweet) =
  ([HttpGet (u "https://x.com/user/status/12345")],
   Ok (resp (JObj [(u "isValid", JBool true);
                   (u "details", JObj [(u "has_hashtags", JBool true);
                                       (u "has_mention", JBool true);
                                       (u "has_media", JBool true)])]) None)).
Proof.
  apply (verify_share_nft_ruleset py_ucd (fun _ => Response 200 (u "#AGV #Tree #RWA @AGVProtocol"))
           demo_body_tweet (u "https://x.com/user/status/12345") (u "12345") 200
           (u "#AGV #Tree #RWA @AGVProtocol")).
  - reflexivity.
  - discriminate.
  - vm_compute. reflexivity.
  - reflexivity.
  - lia.
Defined.

Lemma prefix_contains : forall n s, prefixb n s = true -> contains n s = true.
Proof. intros n [|x s] H; simpl; rewrite H; reflexivity. Qed.

Lemma contains_cons_needle : forall c n s, contains (c :: n) s = true -> contains n s = true.
Proof.
  intros c n. induction s as [|x s IH]; intros H; [discriminate|].
  cbn [contains] in H. apply orb_true_iff in H as [H|H].
  - cbn [prefixb] in H. apply andb_true_iff in H as [_ H].
    cbn [contains]. apply orb_true_iff. right. apply prefix_contains. exact H.
  - cbn [contains]. apply orb_true_iff. right. apply IH. exact H.
Qed.

Lemma content_from_share : forall text,
  share_rules text = true ->
  contains (u "agv") text && contains (u "tree") text &&
  contains (u "rwa") text && contains (u "@agvprotocol") text = true.
Proof.
  intros text H. unfold share_rules in H.
  apply andb_true_iff in H as [H Hm]. apply andb_true_iff in H as [H Hr].
  apply andb_true_iff in H as [Ha Ht].
  change (u "#agv") with (35 :: u "agv") in Ha.
  change (u "#tree") with (35 :: u "tree") in Ht.
  change (u "#rwa") with (35 :: u "rwa") in Hr.
  apply contains_cons_needle in Ha, Ht, Hr.
  rewrite Ha, Ht, Hr, Hm. reflexivity.
Qed.

Definition is_valid_of (r : VerificationResponse) : bool :=
  match result r with
  | JObj kvs => match dict_get (u "isValid") kvs with Some (JBool b) => b | _ => false end
  | _ => false
  end.

(** X4. The share-NFT ruleset is stricter than the content ruleset: when
    /verify-share-nft accepts a post, /verify-content given the same URL
    (and the same answer from the server) accepts it too. *)
Theorem share_valid_implies_content_valid : forall db http url bs bc r,
  get_str_field db bs (u "tweetUrl") = ([], Ok url) ->
  get_str_field db bc (u "link") = ([], Ok url) ->
  snd (verify_share_nft db http (Some bs)) = Ok r -> is_valid_of r = true ->
  exists r', snd (verify_content db http (Some bc)) = Ok r' /\ is_valid_of r' = true.
Proof.
  intros db http url bs bc r Hs Hc Hr Hv.
  unfold verify_share_nft in Hr. rewrite Hs in Hr. cbn [bind] in Hr.
  unfold verify_content. rewrite Hc. cbn [bind].
  destruct (is_empty url); [inversion Hr; subst; discriminate|].
  destruct (extract_tweet_id_from_url db url); [|inversion Hr; subst; discriminate].
  unfold client_get in *. destruct (http url) as [st txt|e].
  - cbn [bind try_except app] in *.
    destruct (st >=? 400); [inversion Hr; subst; discriminate|].
    cbn [snd] in *. inversion Hr; subst r. clear Hr.
    eexists; split; [reflexivity|].
    unfold is_valid_of in *. cbn [result dict_get] in *.
    set (text := lower db txt) in *.
    assert (Hsr : share_rules text = true).
    { cbn [forallb] in Hv.
      destruct (pystr_eqb (u "isValid") (u "details")) eqn:E1; [discriminate|].
      unfold share_rules. repeat rewrite andb_true_r in Hv.
      revert Hv. cbn [pystr_eqb]. simpl.
      destruct (contains (u "#agv") text), (contains (u "#tree") text),
               (contains (u "#rwa") text), (contains (u "@agvprotocol") text);
        simpl; auto. }
    pose proof (content_from_share text Hsr) as Hc'.
    revert Hc'. simpl.
    destruct (contains (u "agv") text), (contains (u "tree") text),
             (contains (u "rwa") text), (contains (u "@agvprotocol") text);
      simpl; auto.
  - cbn [bind try_except app snd] in Hr. inversion Hr; subst. discriminate.
Qed.

Definition demo_post_page : pystr -> fetch_result :=
  fun _ => Response 200 (u "#AGV #Tree #RWA @AGVProtocol").

Lemma share_valid_implies_content_valid_witness :
  exists r', snd (verify_content py_ucd demo_post_page
                    (Some (JObj [(u "link", JStr (u "https://x.com/user/status/12345"))]))) = Ok r'
             /\ is_valid_of r' = true.
Proof.
  apply (share_valid_implies_content_valid py_ucd demo_post_page
           (u "https://x.com/user/status/12345") demo_body_tweet
           (JObj [(u "link", JStr (u "https://x.com/user/status/12345"))])
           (resp (JObj [(u "isValid", JBool true);
                        (u "details", JObj [(u "has_hashtags", JBool true);
                                            (u "has_mention", JBool true);
                                            (u "has_media", JBool true)])]) None)).
  - reflexivity.
  - reflexivity.
  - vm_compute. reflexivity.
  - reflexivity.
Defined.

(** X5. A fetch that raises (connection failure, timeout, invalid URL)
    is caught: /verify-content answers [isValid] false with the error
    "Fetch error: <message>", /verify-share-nft (for a URL with an id) with
    "Verification error: <message>", each after its single attempt. *)
Theorem fetch_exception_reported : forall db http body url e,
  http url = Transport e -> url <> [] ->
  (get_str_field db body (u "link") = ([], Ok url) ->
     verify_content db http (Some body) =
     ([HttpGet url], Ok (resp invalid (Some (u "Fetch error: " ++ emsg e))))) /\
  (get_str_field db body (u "tweetUrl") = ([], Ok url) ->
     extract_tweet_id_from_url db url <> None ->
     verify_share_nft db http (Some body) =
     ([HttpGet url], Ok (resp invalid (Some (u "Verification error: " ++ emsg e))))).
Proof.
  intros db http body url e Hh Hu.
  destruct url as [|c l]; [congruence|]. split.
  - intros Hb. unfold verify_content. rewrite Hb. cbn [bind is_empty].
    unfold client_get. rewrite Hh. reflexivity.
  - intros Hb Hx. unfold verify_share_nft. rewrite Hb. cbn [bind is_empty].
    destruct (extract_tweet_id_from_url db (c :: l)); [|congruence].
    unfold client_get. rewrite Hh. reflexivity.
Qed.

Lemma fetch_exception_reported_witness :
  verify_content py_ucd (fun _ => Transport (Exc TransportError (u "timed out")))
    (Some demo_body_link) =
  ([HttpGet (u "http://example.com/post")],
   Ok (resp invalid (Some (u "Fetch error: " ++ u "timed out")))).
Proof.
  apply (proj1 (fetch_exception_reported py_ucd
           (fun _ => Transport (Exc TransportError (u "timed out"))) demo_body_link
           (u "http://example.com/post") (Exc TransportError (u "timed out")) eq_refl
           ltac:(discriminate))).
  reflexivity.
Defined.

(** A body field the handlers read without raising: absent, falsy, or a
    string. *)
Definition field_ok (kvs : list (pystr * json)) (k : pystr) : Prop :=
  match dict_get k kvs with
  | None => True
  | Some (JStr _) => True
  | Some v => truthy v = false
  end.

(** The string the handlers work with: the field, stripped, or empty. *)
Definition field_text (db : ucd) (kvs : list (pystr * json)) (k : pystr) : pystr :=
  match dict_get k kvs with
  | Some (JStr s) => py_strip db s
  | _ => []
  end.

Lemma get_str_field_cases : forall db kvs k,
  get_str_field db (JObj kvs) k = ret (field_text db kvs k) \/
  (field_text db kvs k = [] /\ exists e, get_str_field db (JObj kvs) k = raise e).
Proof.
  intros db kvs k. unfold get_str_field, field_text.
  destruct (dict_get k kvs) as [v|]; [|left; reflexivity].
  destruct v as [|b|n|s|l|kv]; cbn [truthy];
    [| destruct b | destruct (n =? 0) | destruct s | destruct l | destruct kv]; cbn [negb];
    first [left; reflexivity | right; split; [reflexivity | eexists; reflexivity]].
Qed.

Lemma get_str_field_ok : forall db kvs k, field_ok kvs k ->
  get_str_field db (JObj kvs) k = ret (field_text db kvs k).
Proof.
  intros db kvs k H. unfold field_ok, field_text in *. unfold get_str_field.
  destruct (dict_get k kvs) as [v|]; [|reflexivity].
  destruct v as [|b|n|s|l|kv]; cbn [truthy] in *;
    [reflexivity | subst b; reflexivity | unfold get_str_field; rewrite H; reflexivity
    | destruct s; reflexivity | destruct l; [reflexivity|discriminate]
    | destruct kv; [reflexivity|discriminate]].
Qed.

(** X6. On every object body, /verify-content makes exactly one remote
    call, a GET of the stripped link, when the link is non-empty, and none
    when it is missing, blank, falsy or not a string (the last raises
    before any fetch); /verify-share-nft GETs the stripped post URL
    itself, and only when a post id can be extracted from it. *)
Theorem content_handlers_fetch_log : forall db http kvs,
  (fst (verify_content db http (Some (JObj kvs))) =
     let link := field_text db kvs (u "link") in
     if is_empty link then [] else [HttpGet link]) /\
  (fst (verify_share_nft db http (Some (JObj kvs))) =
     let url := field_text db kvs (u "tweetUrl") in
     if is_empty url then []
     else match extract_tweet_id_from_url db url with
          | None => []
          | Some _ => [HttpGet url]
          end).
Proof.
  intros db http kvs. split.
  - unfold verify_content.
    destruct (get_str_field_cases db kvs (u "link")) as [Hf | [Ht [e Hf]]];
      rewrite Hf; [|rewrite Ht; reflexivity].
    rewrite bind_ret. cbv zeta.
    destruct (is_empty (field_text db kvs (u "link"))); [reflexivity|].
    unfold client_get. destruct (http (field_text db kvs (u "link"))) as [st t|e].
    + cbn [bind try_except]. destruct (st >=? 400); reflexivity.
    + reflexivity.
  - unfold verify_share_nft.
    destruct (get_str_field_cases db kvs (u "tweetUrl")) as [Hf | [Ht [e Hf]]];
      rewrite Hf; [|rewrite Ht; reflexivity].
    rewrite bind_ret. cbv zeta.
    destruct (is_empty (field_text db kvs (u "tweetUrl"))); [reflexivity|].
    destruct (extract_tweet_id_from_url db (field_text db kvs (u "tweetUrl"))); [|reflexivity].
    unfold client_get. destruct (http (field_text db kvs (u "tweetUrl"))) as [st t|e].
    + cbn [bind try_except]. destruct (st >=? 400); reflexivity.
    + reflexivity.
Qed.

Lemma content_handlers_fetch_log_witness :
  fst (verify_content py_ucd demo_post_page
         (Some (JObj [(u "link", JStr (u "  http://example.com/post "))]))) =
  [HttpGet (u "http://example.com/post")].
Proof.
  rewrite (proj1 (content_handlers_fetch_log py_ucd demo_post_page
                    [(u "link", JStr (u "  http://example.com/post "))])).
  reflexivity.
Defined.

(** ** Handlers on well-formed requests *)

Lemma try_ret_ok : forall A (m : M A) h,
  (forall e, exists l a, h e = (l, Ok a)) -> exists a, snd (try_except m h) = Ok a.
Proof.
  intros A [l [a|e]] h H; [eexists; reflexivity|].
  destruct (H e) as [l' [a He]]. unfold try_except. rewrite He. eexists; reflexivity.
Qed.

Ltac handler_ok :=
  repeat match goal with
  | |- exists a, snd (ret _) = Ok a => eexists; reflexivity
  | |- exists a, snd (if ?b then _ else _) = Ok a => destruct b
  | |- exists a, snd (match ?x with _ => _ end) = Ok a => destruct x
  | |- exists a, snd (try_except _ _) = Ok a =>
      apply try_ret_ok; intros ?e;
      first [destruct (ekind e); eexists _, _; reflexivity | eexists _, _; reflexivity]
  end.

(** X7. On every well-formed request the handlers answer an envelope and
    never raise: a body that is not JSON, or a JSON object whose required
    field is absent, falsy or a string, gets an envelope from
    /verify-agent-application, /verify-content and /verify-share-nft
    (whatever the Sheets client or the fetched site does), and
    /verify-wallet answers an envelope for every query. *)
Theorem handlers_total_on_wellformed : forall db cfg http kvs address,
  snd (verify_agent_application db cfg None) = Ok (resp invalid (Some (u "Invalid JSON body"))) /\
  snd (verify_content db http None) = Ok (resp invalid (Some (u "Invalid JSON body"))) /\
  snd (verify_share_nft db http None) = Ok (resp invalid (Some (u "Invalid JSON body"))) /\
  (field_ok kvs (u "email") ->
     exists r, snd (verify_agent_application db cfg (Some (JObj kvs))) = Ok r) /\
  (field_ok kvs (u "link") ->
     exists r, snd (verify_content db http (Some (JObj kvs))) = Ok r) /\
  (field_ok kvs (u "tweetUrl") ->
     exists r, snd (verify_share_nft db http (Some (JObj kvs))) = Ok r) /\
  (exists r, snd (verify_wallet db cfg address) = Ok r).
Proof.
  intros db cfg http kvs address.
  split; [reflexivity|]. split; [reflexivity|]. split; [reflexivity|].
  split; [|split; [|split]].
  - intros Hf. unfold verify_agent_application. rewrite get_str_field_ok, bind_ret by exact Hf.
    handler_ok.
  - intros Hf. unfold verify_content. rewrite get_str_field_ok, bind_ret by exact Hf.
    handler_ok.
  - intros Hf. unfold verify_share_nft. rewrite get_str_field_ok, bind_ret by exact Hf.
    handler_ok.
  - unfold verify_wallet. handler_ok.
Qed.

Lemma handlers_total_on_wellformed_witness :
  exists r, snd (verify_agent_application py_ucd cfg_forbidden
                   (Some (JObj [(u "email", JStr (u "a@b.c"))]))) = Ok r.
Proof.
  exact (proj1 (proj2 (proj2 (proj2 (handlers_total_on_wellformed py_ucd cfg_forbidden
             demo_post_page [(u "email", JStr (u "a@b.c"))] None)))) I).
Defined.

(** ** Remote calls of the lookup *)

(** X8. A column letter that column_letter_to_index rejects is not
    reported: once the spreadsheet has a non-empty table, the lookup makes
    its two remote calls and then returns [False], the same answer as an
    absent value. *)
Theorem invalid_column_reads_as_not_found : forall db api sid title titles tbl letter m target,
  sid <> [] ->
  get_metadata api sid = Ok (Some (title :: titles)) ->
  get_values api sid (title ++ u "!A:ZZ") = Ok (Some tbl) -> tbl <> [] ->
  column_letter_to_index db letter = Raise (Exc ValueError m) ->
  is_email_in_sheet db (Some api) target (Some sid) letter =
  ([SheetsMetadata sid; SheetsValues sid (title ++ u "!A:ZZ")], Ok false).
Proof.
  intros db api sid title titles tbl letter m target Hsid Hm Hv Ht Hc.
  destruct sid as [|c s]; [congruence|].
  unfold is_email_in_sheet, spreadsheets_get, values_get. cbn [truthy_id negb].
  rewrite Hm. cbn [bind first_sheet_title ret]. rewrite Hv. cbn [bind try_except app].
  destruct tbl as [|header rows]; [congruence|].
  rewrite Hc. reflexivity.
Qed.

Lemma invalid_column_reads_as_not_found_witness :
  is_email_in_sheet py_ucd (Some (demo_api demo_table)) (u "y") (Some (u "S1")) (u "A1") =
  ([SheetsMetadata (u "S1"); SheetsValues (u "S1") (u "Sheet1!A:ZZ")], Ok false).
Proof.
  apply (invalid_column_reads_as_not_found py_ucd (demo_api demo_table) (u "S1") (u "Sheet1") []
           demo_table (u "A1") (u "Invalid column letter: A1")).
  - discriminate.
  - reflexivity.
  - reflexivity.
  - discriminate.
  - reflexivity.
Defined.

Lemma scan_rows_no_calls : forall db ci target rows, fst (scan_rows db ci target rows) = [].
Proof.
  intros db ci target rows. induction rows as [|row rows IH]; [reflexivity|].
  cbn [scan_rows]. destruct (Z.of_nat (List.length row) >? ci); [|exact IH].
  unfold getitem.
  match goal with |- context [match ?x with Some _ => _ | None => _ end] =>
    destruct x as [cell|] end; [|reflexivity].
  rewrite bind_ret. destruct (pystr_eqb (norm db cell) target); [reflexivity | exact IH].
Qed.

(** X9. A lookup makes at most two remote calls, in this order: the
    metadata of the given spreadsheet, then the values of the range
    "<first tab title>!A:ZZ" of that spreadsheet, the title being the one
    the metadata reply lists first; with no client or no sheet id it makes
    none. *)
Theorem lookup_call_log : forall db svc target sid letter,
  fst (is_email_in_sheet db svc target sid letter) = [] \/
  exists api s, svc = Some api /\ sid = Some s /\
    (fst (is_email_in_sheet db svc target sid letter) = [SheetsMetadata s] \/
     exists title titles,
       get_metadata api s = Ok (Some (title :: titles)) /\
       fst (is_email_in_sheet db svc target sid letter) =
       [SheetsMetadata s; SheetsValues s (title ++ u "!A:ZZ")]).
Proof.
  intros db [api|] target sid letter; [|left; reflexivity].
  unfold is_email_in_sheet.
  destruct (truthy_id sid) eqn:Ht; cbn [negb]; [|left; reflexivity].
  destruct sid as [s|]; [|discriminate]. right. exists api, s. split; [reflexivity|].
  split; [reflexivity|].
  unfold spreadsheets_get, values_get.
  destruct (get_metadata api s) as [meta|e] eqn:Hm; [|left; reflexivity].
  destruct meta as [[|title titles]|]; cbn [bind first_sheet_title]; [left; reflexivity| |left; reflexivity].
  right. exists title, titles. split; [reflexivity|].
  rewrite bind_ret. destruct (get_values api s (title ++ u "!A:ZZ")) as [tbl|e]; [|reflexivity].
  cbn [bind].
  destruct (match tbl with Some v => v | None => [] end) as [|header rows]; [reflexivity|].
  destruct (column_letter_to_index db letter) as [ci|[k m]];
    [|destruct k; reflexivity].
  destruct (ci >=? Z.of_nat (List.length header)); [reflexivity|].
  destruct (scan_rows db ci (norm db target) rows) as [l r] eqn:E.
  pose proof (scan_rows_no_calls db ci (norm db target) rows) as H0.
  rewrite E in H0. cbn [fst] in H0. subst l.
  destruct r; reflexivity.
Qed.

(** ** The agent and wallet handlers over a lookup *)

Lemma agent_reports_lookup : forall db (cfg : config) (api : sheets_api) (sid : pystr)
    (body : json) (email : pystr) (found : bool),
  sheets_service cfg = Some api ->
  AGENT_SHEET_ID cfg = Some sid -> sid <> [] ->
  get_str_field db body (u "email") = ([], Ok email) -> email <> [] ->
  snd (is_email_in_sheet db (Some api) email (Some sid) (AGENT_EMAIL_COLUMN cfg)) = Ok found ->
  verify_agent_application db cfg (Some body) =
  (fst (is_email_in_sheet db (Some api) email (Some sid) (AGENT_EMAIL_COLUMN cfg)),
   Ok (resp (JObj [(u "isValid", JBool found);
                   (u "details", JObj [(u "email", JStr email);
                                       (u "found", JBool found)])]) None)).
Proof.
  intros db cfg api sid body email found Hs Hid Hsid Hb He Hl.
  unfold verify_agent_application.
  rewrite Hb. cbn [bind]. destruct email as [|ch t]; [congruence|]. cbn [is_empty].
  rewrite Hs, Hid. destruct sid as [|c s]; [congruence|]. cbn [truthy_id negb].
  revert Hl.
  match goal with |- context [is_email_in_sheet ?a ?b ?c ?d ?e] =>
    generalize (is_email_in_sheet a b c d e) end.
  intros [l r]. cbn [snd]. intros ->. cbn [bind try_except fst ret app].
  rewrite ?app_nil_r. reflexivity.
Qed.

Lemma wallet_reports_lookup : forall db (cfg : config) (api : sheets_api) (sid : pystr)
    (address : pystr) (found : bool),
  sheets_service cfg = Some api ->
  WALLET_SHEET_ID cfg = Some sid -> sid <> [] -> address <> [] ->
  snd (is_wallet_in_sheet db (Some api) address (Some sid) (WALLET_ADDRESS_COLUMN cfg)) = Ok found ->
  verify_wallet db cfg (Some address) =
  (fst (is_wallet_in_sheet db (Some api) address (Some sid) (WALLET_ADDRESS_COLUMN cfg)),
   Ok (resp (JObj [(u "isValid", JBool found);
                   (u "details", JObj [(u "wallet", JStr address);
                                       (u "found", JBool found)])]) None)).
Proof.
  intros db cfg api sid address found Hs Hid Hsid Ha Hl. unfold verify_wallet.
  destruct address as [|ch t]; [congruence|].
  rewrite Hs, Hid. destruct sid as [|c s]; [congruence|]. cbn [truthy_id negb].
  revert Hl.
  match goal with |- context [is_wallet_in_sheet ?a ?b ?c ?d ?e] =>
    generalize (is_wallet_in_sheet a b c d e) end.
  intros [l r]. cbn [snd]. intros ->. cbn [bind try_except fst ret app].
  rewrite ?app_nil_r. reflexivity.
Qed.

(** X10. When the lookup answers, /verify-agent-application and
    /verify-wallet make exactly the lookup's remote calls and report its
    answer: [{"isValid": found, "details": {"email" | "wallet": value,
    "found": found}}] with no error, the email being the stripped field
    and the wallet the query parameter as given. *)
Theorem handlers_report_lookup : forall db (cfg : config) (api : sheets_api) (sid : pystr)
    (body : json) (email address : pystr) (found : bool),
  sheets_service cfg = Some api ->
  (AGENT_SHEET_ID cfg = Some sid -> sid <> [] ->
     get_str_field db body (u "email") = ([], Ok email) -> email <> [] ->
     snd (is_email_in_sheet db (Some api) email (Some sid) (AGENT_EMAIL_COLUMN cfg)) = Ok found ->
     verify_agent_application db cfg (Some body) =
     (fst (is_email_in_sheet db (Some api) email (Some sid) (AGENT_EMAIL_COLUMN cfg)),
      Ok (resp (JObj [(u "isValid", JBool found);
                      (u "details", JObj [(u "email", JStr email);
                                          (u "found", JBool found)])]) None))) /\
  (WALLET_SHEET_ID cfg = Some sid -> sid <> [] -> address <> [] ->
     snd (is_wallet_in_sheet db (Some api) address (Some sid) (WALLET_ADDRESS_COLUMN cfg)) = Ok found ->
     verify_wallet db cfg (Some address) =
     (fst (is_wallet_in_sheet db (Some api) address (Some sid) (WALLET_ADDRESS_COLUMN cfg)),
      Ok (resp (JObj [(u "isValid", JBool found);
                      (u "details", JObj [(u "wallet", JStr address);
                                          (u "found", JBool found)])]) None))).
Proof.
  intros db cfg api sid body email address found Hs. split.
  - apply agent_reports_lookup; exact Hs.
  - apply wallet_reports_lookup; exact Hs.
Qed.

Definition cfg_demo (tbl : list (list pystr)) : config := {|
  sheets_service := Some (demo_api tbl);
  AGENT_SHEET_ID := Some (u "S1");
  WALLET_SHEET_ID := Some (u "S1");
  AGENT_EMAIL_COLUMN := u "B";
  WALLET_ADDRESS_COLUMN := u "B"
|}.

Lemma handlers_report_lookup_witness :
  verify_agent_application py_ucd (cfg_demo demo_table)
    (Some (JObj [(u "email", JStr (u " Foo@Bar.com "))])) =
  ([SheetsMetadata (u "S1"); SheetsValues (u "S1") (u "Sheet1!A:ZZ")],
   Ok (resp (JObj [(u "isValid", JBool true);
                   (u "details", JObj [(u "email", JStr (u "Foo@Bar.com"));
                                       (u "found", JBool true)])]) None)).
Proof.
  apply (proj1 (handlers_report_lookup py_ucd (cfg_demo demo_table) (demo_api demo_table)
           (u "S1") (JObj [(u "email", JStr (u " Foo@Bar.com "))]) (u "Foo@Bar.com") []
           true eq_refl)).
  - reflexivity.
  - discriminate.
  - reflexivity.
  - discriminate.
  - reflexivity.
Defined.

Lemma strip_spaces : forall db s, forallb (isspace db) s = true -> py_strip db s = [].
Proof.
  intros db s H. unfold py_strip.
  rewrite <- (app_nil_r s), lstrip_spaces_app by exact H. reflexivity.
Qed.

(** X11. /verify-wallet does not strip its parameter before the
    "missing" test: an address made only of whitespace is looked up, as
    the empty string, and is reported found exactly when some data row
    has a blank cell (empty or whitespace) at the wallet column. *)
Theorem blank_wallet_matches_blank_cell : forall db (cfg : config) (api : sheets_api)
    (sid title : pystr) (titles : list pystr) (tbl : option (list (list pystr)))
    (header : list pystr) (rows : list (list pystr)) (ci : Z) (address : pystr),
  (forall c, isalpha db c = true -> 65 <= c) ->
  sheets_service cfg = Some api -> WALLET_SHEET_ID cfg = Some sid -> sid <> [] ->
  get_metadata api sid = Ok (Some (title :: titles)) ->
  get_values api sid (title ++ u "!A:ZZ") = Ok tbl ->
  match tbl with Some v => v | None => [] end = header :: rows ->
  column_letter_to_index db (WALLET_ADDRESS_COLUMN cfg) = Ok ci ->
  ci < Z.of_nat (List.length header) ->
  address <> [] -> forallb (isspace db) address = true ->
  (snd (verify_wallet db cfg (Some address)) =
   Ok (resp (JObj [(u "isValid", JBool true);
                   (u "details", JObj [(u "wallet", JStr address);
                                       (u "found", JBool true)])]) None)
   <-> Exists (cell_matches db ci []) rows).
Proof.
  intros db cfg api sid title titles tbl header rows ci address
    Halpha Hs Hid Hsid Hm Hv Ht Hc Hw Ha Hsp.
  pose proof (column_index_nonneg db Halpha _ ci Hc) as Hci.
  pose proof (lookup_configured db api sid title titles tbl (WALLET_ADDRESS_COLUMN cfg) ci
                address Hci Hsid Hm Hv Hc) as Hl.
  rewrite Ht in Hl.
  replace (ci >=? Z.of_nat (List.length header)) with false in Hl
    by (symmetry; rewrite Z.geb_leb; apply Z.leb_gt; lia).
  assert (Hn : norm db address = norm db []) by (unfold norm; rewrite strip_spaces by exact Hsp; reflexivity).
  rewrite email_wallet_same in Hl.
  set (found := existsb (row_hit db ci (norm db address)) rows) in Hl.
  assert (Hl' : snd (is_wallet_in_sheet db (Some api) address (Some sid) (WALLET_ADDRESS_COLUMN cfg))
                = Ok found) by exact (f_equal snd Hl).
  rewrite (wallet_reports_lookup db cfg api sid address found Hs Hid Hsid Ha Hl').
  cbn [snd]. subst found. rewrite Hn.
  split.
  - intros H. inversion H as [H'].
    apply existsb_exists in H' as [row [Hin Hrow]].
    apply Exists_exists. exists row. split; [exact Hin|].
    apply row_hit_spec. exact Hrow.
  - intros H. apply Exists_exists in H as [row [Hin Hrow]].
    replace (existsb (row_hit db ci (norm db [])) rows) with true; [reflexivity|].
    symmetry. apply existsb_exists. exists row. split; [exact Hin|].
    apply row_hit_spec. exact Hrow.
Qed.

Definition blank_table : list (list pystr) :=
  [[u "name"; u "wallet"];
   [u "x"; []; u "note"]].

Lemma blank_wallet_matches_blank_cell_witness :
  snd (verify_wallet py_ucd (cfg_demo blank_table) (Some (u " "))) =
  Ok (resp (JObj [(u "isValid", JBool true);
                  (u "details", JObj [(u "wallet", JStr (u " "));
                                      (u "found", JBool true)])]) None).
Proof.
  apply (blank_wallet_matches_blank_cell py_ucd (cfg_demo blank_table) (demo_api blank_table)
           (u "S1") (u "Sheet1") [] (Some blank_table) [u "name"; u "wallet"] [[u "x"; []; u "note"]]
           1 (u " ")).
  - exact py_isalpha_from_A.
  - reflexivity.
  - reflexivity.
  - discriminate.
  - reflexivity.
  - reflexivity.
  - reflexivity.
  - reflexivity.
  - simpl. lia.
  - discriminate.
  - reflexivity.
  - constructor. exists []. split; reflexivity.
Defined.

(** ** The leftmost post id *)

Lemma extract_at_some : forall db url id,
  extract_tweet_id_at db url = Some id ->
  exists c r, url = u "/status/" ++ c :: r /\ is_re_digit db c = true.
Proof.
  intros db url id H. unfold extract_tweet_id_at in H.
  destruct (prefixb (u "/status/") url) eqn:Hp; [|discriminate].
  apply prefixb_app in Hp as [r ->]. rewrite status_len in H.
  destruct r as [|c r]; [discriminate|]. cbn [re_digits] in H.
  destruct (is_re_digit db c) eqn:Hc; [|discriminate].
  exists c, r. split; [reflexivity | exact Hc].
Qed.

Lemma extract_at_here : forall db d rest,
  is_re_digit db d = true ->
  extract_tweet_id_at db (u "/status/" ++ d :: rest) = Some (re_digits db (d :: rest)).
Proof.
  intros db d rest Hd. unfold extract_tweet_id_at.
  replace (prefixb (u "/status/") (u "/status/" ++ d :: rest)) with true
    by (symmetry; apply prefixb_app; eauto).
  rewrite status_len. cbn [re_digits]. rewrite Hd. reflexivity.
Qed.

(** X12. [re.search] reports the leftmost match: when ["/status/" d ...]
    with a digit [d] occurs at offset [length pre] and at no smaller
    offset, the post id is the whole run of digits starting at [d],
    whatever other "/status/<digits>" occur further right. *)
Theorem tweet_id_leftmost : forall db (url pre : pystr) (d : Z) (rest : pystr),
  url = pre ++ u "/status/" ++ d :: rest -> is_re_digit db d = true ->
  (forall pre' d' rest', url = pre' ++ u "/status/" ++ d' :: rest' ->
     is_re_digit db d' = true -> (List.length pre <= List.length pre')%nat) ->
  extract_tweet_id_from_url db url = Some (re_digits db (d :: rest)).
Proof.
  intros db url pre d rest. revert url.
  induction pre as [|x pre IH]; intros url E Hd Hmin.
  - subst url. pose proof (extract_at_here db d rest Hd) as Hh. cbn [app].
    remember (u "/status/" ++ d :: rest) as v eqn:Ev.
    destruct v as [|y v']; [discriminate|].
    cbn [extract_tweet_id_from_url]. rewrite Hh. reflexivity.
  - subst url. cbn [app extract_tweet_id_from_url].
    match goal with |- context [match extract_tweet_id_at ?a ?b with _ => _ end] =>
      destruct (extract_tweet_id_at a b) as [id|] eqn:Ha end.
    + exfalso. apply extract_at_some in Ha as [c [r [Er Hc]]].
      specialize (Hmin [] c r). cbn [app] in Hmin.
      specialize (Hmin Er Hc). cbn [List.length] in Hmin. lia.
    + apply IH; [reflexivity | exact Hd |].
      intros pre' d' rest' E' Hd'.
      specialize (Hmin (x :: pre') d' rest'). cbn [app List.length] in Hmin.
      rewrite E' in Hmin. specialize (Hmin eq_refl Hd'). lia.
Qed.

Lemma tweet_id_leftmost_witness :
  extract_tweet_id_from_url py_ucd (u "x/status/12a/status/9") = Some (u "12").
Proof.
  apply (tweet_id_leftmost py_ucd (u "x/status/12a/status/9") (u "x") 49 (u "2a/status/9")).
  - reflexivity.
  - reflexivity.
  - intros pre' d' rest' E' Hd'.
    destruct pre' as [|p pre']; [discriminate|]. cbn [List.length]. simpl. lia.
Defined.
